(** * IoT diagnostic toolkit: anomaly scorer (app.py) and serial log
      collector (Data/FetchData.py)

    A shallow embedding of the two Python programs and the properties
    their specification states about them.

    Numbers.  Python and numpy floats are modelled by [pyfloat]: a finite
    value is an exact rational, and the three IEEE special values
    (+inf, -inf, nan) are kept, because [float()] accepts the texts "inf"
    and "nan" and every comparison with nan is false.  Rounding of binary64
    arithmetic is not modelled.

    Collaborators.  The fitted scaler, the trained model and the builtin
    [float()] are not code of the repository: the scaler and the model are
    the functions stored in the application state, [float()] is a parameter
    of the embedding. *)

From Stdlib Require Import String Ascii Bool Arith ZArith NArith QArith Qabs Lia Lqa List.
From Stdlib.Strings Require Import Byte.
Import ListNotations.

Close Scope Q_scope.

(* ================================================================== *)
(** * Floating-point values *)
(* ================================================================== *)

Module PyFloat.

Inductive pyfloat : Type :=
| Fin (q : Q)
| PInf
| NInf
| NaN.

Definition zero : pyfloat := Fin 0.
Definition one : pyfloat := Fin 1.

Definition is_nan (x : pyfloat) : bool :=
  match x with NaN => true | _ => false end.

Definition is_finite (x : pyfloat) : bool :=
  match x with Fin _ => true | _ => false end.

(** Sign of a rational as a comparison with zero. *)
Definition Qsign (q : Q) : comparison := (q ?= 0)%Q.

Definition fneg (x : pyfloat) : pyfloat :=
  match x with
  | Fin q => Fin (- q)
  | PInf => NInf
  | NInf => PInf
  | NaN => NaN
  end.

Definition fadd (x y : pyfloat) : pyfloat :=
  match x, y with
  | NaN, _ | _, NaN => NaN
  | Fin a, Fin b => Fin (a + b)
  | PInf, NInf | NInf, PInf => NaN
  | PInf, _ | _, PInf => PInf
  | NInf, _ | _, NInf => NInf
  end.

Definition fsub (x y : pyfloat) : pyfloat := fadd x (fneg y).

Definition fabs (x : pyfloat) : pyfloat :=
  match x with
  | Fin q => Fin (Qabs q)
  | PInf | NInf => PInf
  | NaN => NaN
  end.

(** The infinity of the sign [c], nan for the sign of zero. *)
Definition inf_of_sign (c : comparison) : pyfloat :=
  match c with Gt => PInf | Lt => NInf | Eq => NaN end.

Definition fmul (x y : pyfloat) : pyfloat :=
  match x, y with
  | NaN, _ | _, NaN => NaN
  | Fin a, Fin b => Fin (a * b)
  | Fin a, PInf | PInf, Fin a => inf_of_sign (Qsign a)
  | Fin a, NInf | NInf, Fin a => inf_of_sign (CompOpp (Qsign a))
  | PInf, PInf | NInf, NInf => PInf
  | PInf, NInf | NInf, PInf => NInf
  end.

(** numpy division: a finite value over zero is an infinity of its sign,
    zero over zero and inf over inf are nan. *)
Definition fdiv (x y : pyfloat) : pyfloat :=
  match x, y with
  | NaN, _ | _, NaN => NaN
  | Fin a, Fin b =>
      match Qsign b with
      | Eq => inf_of_sign (Qsign a)
      | _ => Fin (a / b)
      end
  | Fin _, (PInf | NInf) => Fin 0
  | (PInf | NInf), (PInf | NInf) => NaN
  | PInf, Fin b => match Qsign b with Lt => NInf | _ => PInf end
  | NInf, Fin b => match Qsign b with Lt => PInf | _ => NInf end
  end.

(** [x < y]; false as soon as one side is nan. *)
Definition flt (x y : pyfloat) : bool :=
  match x, y with
  | NaN, _ | _, NaN => false
  | Fin a, Fin b => match (a ?= b)%Q with Lt => true | _ => false end
  | NInf, NInf => false
  | NInf, _ => true
  | _, NInf => false
  | PInf, _ => false
  | Fin _, PInf => true
  end.

(** [x <= y]; false as soon as one side is nan. *)
Definition fle (x y : pyfloat) : bool :=
  match x, y with
  | NaN, _ | _, NaN => false
  | Fin a, Fin b => match (a ?= b)%Q with Gt => false | _ => true end
  | NInf, _ => true
  | _, PInf => true
  | _, NInf => false
  | PInf, _ => false
  end.

(** [x > y] and [x >= y] are the mirrored comparisons. *)
Definition fgt (x y : pyfloat) : bool := flt y x.
Definition fge (x y : pyfloat) : bool := fle y x.

(** [x == y] of Python: nan differs from everything, itself included. *)
Definition feqb (x y : pyfloat) : bool := fle x y && fle y x.

(** Python's builtin [min(a, b)] on two arguments: the first one unless
    the second is strictly smaller. *)
Definition py_min (a b : pyfloat) : pyfloat := if flt b a then b else a.

(** A number of elements as a float. *)
Definition of_nat (n : nat) : pyfloat := Fin (inject_Z (Z.of_nat n)).

(** The closed interval [0, 1]. *)
Definition in_unit_interval (x : pyfloat) : bool := fle zero x && fle x one.

(** Not a number, or at least zero. *)
Definition nan_or_nonneg (x : pyfloat) : Prop :=
  is_nan x = true \/ fle zero x = true.

End PyFloat.
Import PyFloat.

(* ================================================================== *)
(** * The numpy operations used by the scorer *)
(* ================================================================== *)

Module Np.

(** A 2-d array is a list of rows, a 3-d array a list of 2-d arrays. *)
Abbreviation row := (list pyfloat).
Abbreviation matrix := (list (list pyfloat)).
Abbreviation tensor3 := (list (list (list pyfloat))).

(** [np.repeat(m, n, axis=0)]: every row [n] times in a row. *)
Definition repeat (m : matrix) (n : nat) : matrix :=
  flat_map (fun r => List.repeat r n) m.

(** Cut a list into consecutive pieces of [n] elements; [fuel] bounds the
    number of pieces. *)
Fixpoint chunks_aux {A : Type} (fuel n : nat) (l : list A) : list (list A) :=
  match fuel, l with
  | O, _ | _, [] => []
  | S fuel', _ => firstn n l :: chunks_aux fuel' n (skipn n l)
  end.

Definition chunks {A : Type} (n : nat) (l : list A) : list (list A) :=
  chunks_aux (length l) n l.

(** [m.reshape(a, b, c)] of a 2-d array, in row-major order.  [None] is
    the ValueError numpy raises when the number of elements is not
    [a * b * c]. *)
Definition reshape (m : matrix) (a b c : nat) : option tensor3 :=
  let flat := concat m in
  if Nat.eqb (length flat) (a * b * c)
  then Some (chunks b (chunks c flat))
  else None.

(** Elementwise combination of two lists of equal length. *)
Fixpoint map2 {A B C : Type} (f : A -> B -> C) (l : list A) (l' : list B) : list C :=
  match l, l' with
  | x :: t, y :: t' => f x y :: map2 f t t'
  | _, _ => []
  end.

(** [x - y] on 3-d arrays of one shape, element by element.  On arrays
    of unequal shapes numpy broadcasts or raises ValueError; neither is
    modelled here, and the theorems about the error and what the control
    shows for it take as a hypothesis that the model answers an array of
    the shape (1, TIME_STEPS, 4) it is given, as the specification has
    it, so that both arrays have one shape. *)
Definition sub (x y : tensor3) : tensor3 := map2 (map2 (map2 fsub)) x y.

(** [np.abs] on a 3-d array. *)
Definition abs (x : tensor3) : tensor3 := map (map (map fabs)) x.

(** All elements of a 3-d array in row-major order. *)
Definition ravel (x : tensor3) : list pyfloat := concat (concat x).

(** The sum of the elements, added from left to right (exact on finite
    values, so the order in which numpy adds them does not matter). *)
Definition sum (l : list pyfloat) : pyfloat := fold_left fadd l zero.

(** [np.mean] over all elements: their sum over their number (nan on an
    empty array). *)
Definition mean (x : tensor3) : pyfloat :=
  fdiv (sum (ravel x)) (of_nat (length (ravel x))).

(** The array has shape [(a, b, c)]. *)
Definition has_shape (a b c : nat) (x : tensor3) : bool :=
  Nat.eqb (length x) a
  && forallb (fun m => Nat.eqb (length m) b
                       && forallb (fun r : row => Nat.eqb (length r) c) m) x.

(** Every element is a finite number. *)
Definition all_finite (x : tensor3) : bool :=
  forallb is_finite (ravel x).

(** The rows of a matrix all have [c] elements. *)
Definition rows_of_length (c : nat) (x : matrix) : Prop :=
  forall r, In r x -> length r = c.

End Np.

(* ================================================================== *)
(** * app.py: the anomaly checker *)
(* ================================================================== *)

Module App.

Definition MODEL_PATH : string := "iot_model.keras".
Definition SCALER_PATH : string := "iot_scaler.pkl".
Definition TIME_STEPS : nat := 30.
Definition DEFAULT_THRESHOLD : pyfloat := Fin (15 # 100).

(** The scaler is used through [transform] only and the model through
    [predict] only, so each is the function it computes. *)
Definition Scaler := Np.matrix -> Np.matrix.
Definition Model := Np.tensor3 -> Np.tensor3.

(** Modelled from the spec: the fitted scaler is not part of the
    repository; the specification describes it as an affine transform of
    each row on its own.  [affine_scaler a b] maps every row [x] to
    [x * a + b], feature by feature. *)
Definition affine_row (a b : Np.row) (x : Np.row) : Np.row :=
  Np.map2 fadd (Np.map2 fmul x a) b.

(** [transform] of such a scaler on a matrix of readings. *)
Definition affine_scaler (a b : Np.row) : Scaler :=
  map (affine_row a b).

(** The colours of [ft.colors] the control uses. *)
Inductive color : Type :=
| NO_COLOR | GREEN | RED | BLUE | GREY_400 | GREY_500.

(** Content of [lbl_score].  [Severity p] stands for the text
    f"Severity: {p:.1f}% (Above Normal Limits)" and [Deviation p] for
    f"Deviation: {p:.1f}% (Within Normal Limits)". *)
Inductive score_text : Type :=
| ScoreInitial
| Severity (p : pyfloat)
| Deviation (p : pyfloat).

(** Content of [lbl_loss].  [LossValue x] stands for the text
    f"Raw Reconstruction Error: {x:.4f}". *)
Inductive loss_text : Type :=
| LossInitial
| LossValue (x : pyfloat).

(** The attributes of the control that [load_assets] and [analyze_inputs]
    read or write. *)
Record AnomalyChecker : Type := mkAnomalyChecker {
  model : option Model;
  scaler : option Scaler;
  status : string;
  status_color : color;
  txt_temp : string;
  txt_hum : string;
  txt_press : string;
  txt_soil : string;
  lbl_result_value : string;
  lbl_result_color : color;
  lbl_score_value : score_text;
  progress_bar_value : pyfloat;
  progress_bar_color : color;
  lbl_loss_value : loss_text;
  result_card_visible : bool
}.

Definition with_model (v : option Model) (s : AnomalyChecker) :=
  mkAnomalyChecker v (scaler s) (status s) (status_color s)
    (txt_temp s) (txt_hum s) (txt_press s) (txt_soil s)
    (lbl_result_value s) (lbl_result_color s) (lbl_score_value s)
    (progress_bar_value s) (progress_bar_color s) (lbl_loss_value s)
    (result_card_visible s).

Definition with_scaler (v : option Scaler) (s : AnomalyChecker) :=
  mkAnomalyChecker (model s) v (status s) (status_color s)
    (txt_temp s) (txt_hum s) (txt_press s) (txt_soil s)
    (lbl_result_value s) (lbl_result_color s) (lbl_score_value s)
    (progress_bar_value s) (progress_bar_color s) (lbl_loss_value s)
    (result_card_visible s).

Definition with_status (v : string) (c : color) (s : AnomalyChecker) :=
  mkAnomalyChecker (model s) (scaler s) v c
    (txt_temp s) (txt_hum s) (txt_press s) (txt_soil s)
    (lbl_result_value s) (lbl_result_color s) (lbl_score_value s)
    (progress_bar_value s) (progress_bar_color s) (lbl_loss_value s)
    (result_card_visible s).

Definition with_lbl_result_value (v : string) (s : AnomalyChecker) :=
  mkAnomalyChecker (model s) (scaler s) (status s) (status_color s)
    (txt_temp s) (txt_hum s) (txt_press s) (txt_soil s)
    v (lbl_result_color s) (lbl_score_value s)
    (progress_bar_value s) (progress_bar_color s) (lbl_loss_value s)
    (result_card_visible s).

Definition with_lbl_result_color (v : color) (s : AnomalyChecker) :=
  mkAnomalyChecker (model s) (scaler s) (status s) (status_color s)
    (txt_temp s) (txt_hum s) (txt_press s) (txt_soil s)
    (lbl_result_value s) v (lbl_score_value s)
    (progress_bar_value s) (progress_bar_color s) (lbl_loss_value s)
    (result_card_visible s).

Definition with_lbl_score_value (v : score_text) (s : AnomalyChecker) :=
  mkAnomalyChecker (model s) (scaler s) (status s) (status_color s)
    (txt_temp s) (txt_hum s) (txt_press s) (txt_soil s)
    (lbl_result_value s) (lbl_result_color s) v
    (progress_bar_value s) (progress_bar_color s) (lbl_loss_value s)
    (result_card_visible s).

Definition with_progress_bar_value (v : pyfloat) (s : AnomalyChecker) :=
  mkAnomalyChecker (model s) (scaler s) (status s) (status_color s)
    (txt_temp s) (txt_hum s) (txt_press s) (txt_soil s)
    (lbl_result_value s) (lbl_result_color s) (lbl_score_value s)
    v (progress_bar_color s) (lbl_loss_value s)
    (result_card_visible s).

Definition with_progress_bar_color (v : color) (s : AnomalyChecker) :=
  mkAnomalyChecker (model s) (scaler s) (status s) (status_color s)
    (txt_temp s) (txt_hum s) (txt_press s) (txt_soil s)
    (lbl_result_value s) (lbl_result_color s) (lbl_score_value s)
    (progress_bar_value s) v (lbl_loss_value s)
    (result_card_visible s).

Definition with_lbl_loss_value (v : loss_text) (s : AnomalyChecker) :=
  mkAnomalyChecker (model s) (scaler s) (status s) (status_color s)
    (txt_temp s) (txt_hum s) (txt_press s) (txt_soil s)
    (lbl_result_value s) (lbl_result_color s) (lbl_score_value s)
    (progress_bar_value s) (progress_bar_color s) v
    (result_card_visible s).

Definition with_result_card_visible (v : bool) (s : AnomalyChecker) :=
  mkAnomalyChecker (model s) (scaler s) (status s) (status_color s)
    (txt_temp s) (txt_hum s) (txt_press s) (txt_soil s)
    (lbl_result_value s) (lbl_result_color s) (lbl_score_value s)
    (progress_bar_value s) (progress_bar_color s) (lbl_loss_value s)
    v.

(** ** Loading the assets *)

(** What the file system and the two loaders answer at start-up: whether
    each path exists, and for each loader the object it returns ([inl]) or
    the message of the exception it raises ([inr]). *)
Record Assets : Type := mkAssets {
  model_exists : bool;
  scaler_exists : bool;
  load_model : Model + string;
  joblib_load : Scaler + string
}.

(** [load_assets]: both files must exist; the model is loaded first, then
    the scaler; an exception of either loader is caught and reported, and
    leaves what was assigned before it. *)
Definition load_assets (fs : Assets) (self : AnomalyChecker) : AnomalyChecker :=
  let self := with_status "Ready" GREEN self in
  if model_exists fs && scaler_exists fs then
    match load_model fs with
    | inl m =>
        let self := with_model (Some m) self in
        match joblib_load fs with
        | inl s => with_scaler (Some s) self
        | inr e => with_status ("Error loading files: " ++ e) RED self
        end
    | inr e => with_status ("Error loading files: " ++ e) RED self
    end
  else with_status "Error: Model/Scaler files missing!" RED self.

(** [__init__] followed by [build]: no model, no scaler, the assets
    loaded, and the widgets with their initial values (the four text fields
    hold the defaults of a normal reading, the result card is hidden). *)
Definition init (fs : Assets) : AnomalyChecker :=
  load_assets fs
    (mkAnomalyChecker None None "" NO_COLOR
       "25.0" "50.0" "1013.0" "800.0"
       "Waiting for input..." NO_COLOR ScoreInitial
       zero BLUE LossInitial false).

(** ** Effects of [analyze_inputs] *)

(** The exception the handler of [analyze_inputs] catches. *)
Inductive exn : Type := ValueError.

(** Calls that leave the method: the builtin [float], the scaler, the
    model, and the redraw of the control. *)
Inductive event : Type :=
| EvFloat (text : string)
| EvTransform (x : Np.matrix)
| EvPredict (x : Np.tensor3)
| EvUpdate.

Inductive result (A : Type) : Type :=
| Ok (a : A)
| Raise (e : exn).
Arguments Ok {A} a.
Arguments Raise {A} e.

(** A computation reads and writes the control, may raise, and records
    the calls it makes. *)
Definition M (A : Type) : Type :=
  AnomalyChecker -> result A * AnomalyChecker * list event.

Definition ret {A : Type} (a : A) : M A := fun s => (Ok a, s, []).

Definition bind {A B : Type} (c : M A) (k : A -> M B) : M B :=
  fun s =>
    match c s with
    | (Ok a, s1, t1) =>
        match k a s1 with
        | (r, s2, t2) => (r, s2, t1 ++ t2)
        end
    | (Raise e, s1, t1) => (Raise e, s1, t1)
    end.

Definition raise {A : Type} (e : exn) : M A := fun s => (Raise e, s, []).

(** [try: body  except ValueError: handler]: the handler runs on the state
    the body left behind. *)
Definition try_except (body handler : M unit) : M unit :=
  fun s =>
    match body s with
    | (Ok a, s1, t1) => (Ok a, s1, t1)
    | (Raise ValueError, s1, t1) =>
        match handler s1 with
        | (r, s2, t2) => (r, s2, t1 ++ t2)
        end
    end.

Definition get : M AnomalyChecker := fun s => (Ok s, s, []).
Definition modify (f : AnomalyChecker -> AnomalyChecker) : M unit :=
  fun s => (Ok tt, f s, []).
Definition emit (e : event) : M unit := fun s => (Ok tt, s, [e]).

Notation "x <- c1 ;; c2" := (bind c1 (fun x => c2))
  (at level 61, c1 at next level, right associativity).
Notation "c1 ;; c2" := (bind c1 (fun _ => c2))
  (at level 61, right associativity).

(** [self.update()] *)
Definition update : M unit := emit EvUpdate.

(** [scaler.transform(x)] *)
Definition transform (scaler : Scaler) (x : Np.matrix) : M Np.matrix :=
  emit (EvTransform x) ;; ret (scaler x).

(** [model.predict(x, verbose=0)] *)
Definition predict (model : Model) (x : Np.tensor3) : M Np.tensor3 :=
  emit (EvPredict x) ;; ret (model x).

(** [x.reshape(a, b, c)], raising ValueError on a size mismatch. *)
Definition reshape (x : Np.matrix) (a b c : nat) : M Np.tensor3 :=
  match Np.reshape x a b c with
  | Some t => ret t
  | None => raise ValueError
  end.

Definition is_float_call (e : event) : bool :=
  match e with EvFloat _ => true | _ => false end.
Definition is_transform_call (e : event) : bool :=
  match e with EvTransform _ => true | _ => false end.
Definition is_predict_call (e : event) : bool :=
  match e with EvPredict _ => true | _ => false end.

Section Analyze.

(** The builtin [float] on a text: the number it denotes, or [None] when
    it raises ValueError. *)
Variable float_of : string -> option pyfloat.

(** [float(text)] *)
Definition float (text : string) : M pyfloat :=
  emit (EvFloat text) ;;
  match float_of text with
  | Some v => ret v
  | None => raise ValueError
  end.

(** [analyze_inputs(self, e)] *)
Definition analyze_inputs : M unit :=
  self <- get ;;
  match model self, scaler self with
  | Some the_model, Some the_scaler =>
      try_except
        ( (* 1. Get Values *)
          val_temp <- float (txt_temp self) ;;
          val_hum <- float (txt_hum self) ;;
          val_press <- float (txt_press self) ;;
          val_soil <- float (txt_soil self) ;;
          (* 2. Preprocess *)
          let input_vector := [[val_temp; val_hum; val_press; val_soil]] in
          scaled_vector <- transform the_scaler input_vector ;;
          (* 3. Create Sequence *)
          let input_sequence := Np.repeat scaled_vector TIME_STEPS in
          input_batch <- reshape input_sequence 1 TIME_STEPS 4 ;;
          (* 4. Predict *)
          reconstruction <- predict the_model input_batch ;;
          (* 5. Calculate Error (Mean Absolute Error) *)
          let mae_loss := Np.mean (Np.abs (Np.sub reconstruction input_batch)) in
          (* 6. Determine Status *)
          let score_percent := fdiv mae_loss DEFAULT_THRESHOLD in
          modify (with_lbl_loss_value (LossValue mae_loss)) ;;
          modify (with_result_card_visible true) ;;
          (if fgt mae_loss DEFAULT_THRESHOLD then
             modify (with_lbl_result_value "ANOMALY DETECTED") ;;
             modify (with_lbl_result_color RED) ;;
             modify (with_lbl_score_value
                       (Severity (fmul score_percent (Fin 100)))) ;;
             modify (with_progress_bar_color RED) ;;
             modify (with_progress_bar_value
                       (py_min (fmul score_percent (Fin (5 # 10))) (Fin 1)))
           else
             modify (with_lbl_result_value "STATUS NORMAL") ;;
             modify (with_lbl_result_color GREEN) ;;
             modify (with_lbl_score_value
                       (Deviation (fmul score_percent (Fin 100)))) ;;
             modify (with_progress_bar_color GREEN) ;;
             modify (with_progress_bar_value score_percent)) ;;
          update )
        ( modify (with_lbl_result_value
                    "Invalid Input: Please enter numbers only.") ;;
          modify (with_lbl_result_color RED) ;;
          modify (with_result_card_visible true) ;;
          update )
  | _, _ =>
      modify (with_lbl_result_value "Model not loaded!") ;;
      modify (with_lbl_result_color RED) ;;
      modify (with_result_card_visible true) ;;
      update
  end.

(** The batch [analyze_inputs] hands to the model for the parsed reading
    [reading], when the reshape succeeds. *)
Definition input_batch_of (the_scaler : Scaler) (reading : Np.row)
  : option Np.tensor3 :=
  Np.reshape (Np.repeat (the_scaler [reading]) TIME_STEPS) 1 TIME_STEPS 4.

(** The error [analyze_inputs] computes from that batch. *)
Definition mae_loss_of (the_model : Model) (input_batch : Np.tensor3) : pyfloat :=
  Np.mean (Np.abs (Np.sub (the_model input_batch) input_batch)).

(** The control after the Anomaly branch, and after the Normal branch, for
    the error [mae_loss]. *)
Definition shown_anomaly (mae_loss : pyfloat) (self : AnomalyChecker) : AnomalyChecker :=
  let score_percent := fdiv mae_loss DEFAULT_THRESHOLD in
  with_progress_bar_value (py_min (fmul score_percent (Fin (5 # 10))) (Fin 1))
    (with_progress_bar_color RED
       (with_lbl_score_value (Severity (fmul score_percent (Fin 100)))
          (with_lbl_result_color RED
             (with_lbl_result_value "ANOMALY DETECTED"
                (with_result_card_visible true
                   (with_lbl_loss_value (LossValue mae_loss) self)))))).

Definition shown_normal (mae_loss : pyfloat) (self : AnomalyChecker) : AnomalyChecker :=
  let score_percent := fdiv mae_loss DEFAULT_THRESHOLD in
  with_progress_bar_value score_percent
    (with_progress_bar_color GREEN
       (with_lbl_score_value (Deviation (fmul score_percent (Fin 100)))
          (with_lbl_result_color GREEN
             (with_lbl_result_value "STATUS NORMAL"
                (with_result_card_visible true
                   (with_lbl_loss_value (LossValue mae_loss) self)))))).

(** The control after a message in the result label. *)
Definition shown_message (text : string) (self : AnomalyChecker) : AnomalyChecker :=
  with_result_card_visible true
    (with_lbl_result_color RED (with_lbl_result_value text self)).

(** At least one of the four texts is rejected by [float]. *)
Definition some_field_rejected (self : AnomalyChecker) : Prop :=
  float_of (txt_temp self) = None \/ float_of (txt_hum self) = None \/
  float_of (txt_press self) = None \/ float_of (txt_soil self) = None.

(** The three components of a run of [analyze_inputs]. *)
Definition run_result (self : AnomalyChecker) : result unit :=
  fst (fst (analyze_inputs self)).
Definition run_state (self : AnomalyChecker) : AnomalyChecker :=
  snd (fst (analyze_inputs self)).
Definition run_trace (self : AnomalyChecker) : list event :=
  snd (analyze_inputs self).

End Analyze.

(** ** The scoring contract of the specification *)

(** The result of [score(reading)]. *)
Record AnomalyScore : Type := mkAnomalyScore {
  raw_error : pyfloat;
  severity_percent : pyfloat;
  is_anomaly : bool
}.

(** [score] as the specification words it, a function of the reading, the
    scaler and the model: normalize, repeat over TIME_STEPS positions,
    reconstruct, take the mean absolute error, relate it to the threshold.
    [None] when the normalized reading does not fill a (1, TIME_STEPS, 4)
    sequence. *)
Definition score (the_scaler : Scaler) (the_model : Model) (reading : Np.row)
  : option AnomalyScore :=
  match input_batch_of the_scaler reading with
  | Some sequence =>
      let err := mae_loss_of the_model sequence in
      Some (mkAnomalyScore err
              (fmul (fdiv err DEFAULT_THRESHOLD) (Fin 100))
              (fgt err DEFAULT_THRESHOLD))
  | None => None
  end.

(** Element [(t, f)] of a sequence of readings. *)
Definition at_step (x : Np.matrix) (t f : nat) : pyfloat :=
  nth f (nth t x []) NaN.

(** The reconstruction error as the specification words it: the mean,
    over all time steps and all four features, of the absolute difference
    between the input sequence and the reconstructed sequence. *)
Definition described_error (input reconstructed : Np.matrix) : pyfloat :=
  fdiv
    (Np.sum
       (map (fun tf => fabs (fsub (at_step input (fst tf) (snd tf))
                                  (at_step reconstructed (fst tf) (snd tf))))
            (list_prod (seq 0 TIME_STEPS) (seq 0 4))))
    (of_nat (TIME_STEPS * 4)).

(** Both files exist and both loaders return an object. *)
Definition assets_available (fs : Assets) : bool :=
  model_exists fs && scaler_exists fs
  && match load_model fs with inl _ => true | inr _ => false end
  && match joblib_load fs with inl _ => true | inr _ => false end.

(** The four texts of the form, in the order [analyze_inputs] reads
    them. *)
Definition form_texts (self : AnomalyChecker) : list string :=
  [txt_temp self; txt_hum self; txt_press self; txt_soil self].

Definition is_update_call (e : event) : bool :=
  match e with EvUpdate => true | _ => false end.

(** The array a collaborator is called with has the shape it expects:
    one row of four values for the scaler, (1, TIME_STEPS, 4) for the
    model. *)
Definition well_shaped_call (e : event) : bool :=
  match e with
  | EvTransform x =>
      Nat.eqb (length x) 1 && forallb (fun r => Nat.eqb (length r) 4) x
  | EvPredict x => Np.has_shape 1 TIME_STEPS 4 x
  | _ => true
  end.

(** How many calls of a trace satisfy [p]. *)
Definition count_calls (p : event -> bool) (calls : list event) : nat :=
  length (filter p calls).

End App.

(* ================================================================== *)
(** * Concrete collaborators *)
(* ================================================================== *)

(** Collaborators and forms to run the embedding on: a fragment of
    [float], scalers, models and the controls they give. *)
Module Sample.
Import App.

Local Open Scope string_scope.

Definition digit_of (c : ascii) : option Z :=
  let n := nat_of_ascii c in
  if (48 <=? n)%nat && (n <=? 57)%nat then Some (Z.of_nat (n - 48)) else None.

(** Reads an unsigned decimal literal: digits with at most one point and
    at least one digit. *)
Fixpoint scan (s : string) (num : Z) (scale : positive)
         (after_point : bool) (ndigits : nat) : option Q :=
  match s with
  | EmptyString =>
      if Nat.eqb ndigits 0 then None else Some (Qred (num # scale))
  | String c rest =>
      if Ascii.eqb c "." then
        if after_point then None else scan rest num scale true ndigits
      else
        match digit_of c with
        | Some d =>
            scan rest (num * 10 + d)
                 (if after_point then scale * 10 else scale)%positive
                 after_point (S ndigits)
        | None => None
        end
  end.

(** A fragment of the builtin [float]: the texts "nan", "inf" and "-inf",
    and plain decimal literals of at most 17 characters with an optional
    sign, which all lie in the range of a Python float.  On these texts
    it returns what [float] returns (up to rounding).  Every other text is
    rejected here: all the texts [float] rejects, and also texts [float]
    accepts (an exponent, whitespace around the number, underscores
    between digits, "Infinity", "+inf", longer literals). *)
Definition float_fragment (s : string) : option pyfloat :=
  if String.eqb s "nan" then Some NaN
  else if String.eqb s "inf" then Some PInf
  else if String.eqb s "-inf" then Some NInf
  else if Nat.ltb 17 (String.length s) then None
  else
    match s with
    | String "-" rest => option_map (fun q => Fin (- q)) (scan rest 0 1 false 0)
    | String "+" rest => option_map Fin (scan rest 0 1 false 0)
    | _ => option_map Fin (scan s 0 1 false 0)
    end.

(** A scaler fitted around the default reading of the form. *)
Definition demo_scaler : Scaler :=
  affine_scaler
    [Fin (1 # 5); Fin (1 # 10); Fin (1 # 20); Fin (1 # 100)]
    [Fin (- 5); Fin (- 5); Fin (- (1013 # 20)); Fin (- 8)].

(** A model that reconstructs every value at nine tenths of it. *)
Definition demo_model : Model :=
  map (map (map (fun x => fmul x (Fin (9 # 10))))).

(** The control after start-up with both assets present. *)
Definition demo_assets : Assets :=
  mkAssets true true (inl demo_model) (inl demo_scaler).

Definition demo_checker : AnomalyChecker := init demo_assets.

(** The same control with other texts in the four fields. *)
Definition with_texts (t h p s : string) (c : AnomalyChecker) : AnomalyChecker :=
  mkAnomalyChecker (model c) (scaler c) (status c) (status_color c)
    t h p s
    (lbl_result_value c) (lbl_result_color c) (lbl_score_value c)
    (progress_bar_value c) (progress_bar_color c) (lbl_loss_value c)
    (result_card_visible c).

(** The form with the text abc in the temperature field. *)
Definition abc_checker : AnomalyChecker :=
  with_texts "abc" "50.0" "1013.0" "800.0" demo_checker.

(** The form after the analysis of an extreme temperature, with the text
    abc typed into the temperature field afterwards. *)
Definition hot_checker : AnomalyChecker :=
  with_texts "500.0" "50.0" "1013.0" "800.0" demo_checker.

Definition abc_after_hot_checker : AnomalyChecker :=
  with_texts "abc" "50.0" "1013.0" "800.0"
    (run_state float_fragment hot_checker).

(** The form with a temperature one degree above the default, and the
    batch the model receives for it. *)
Definition warm_checker : AnomalyChecker :=
  with_texts "26.0" "50.0" "1013.0" "800.0" demo_checker.

Definition warm_batch : Np.tensor3 :=
  Eval vm_compute in
    match input_batch_of demo_scaler [Fin 26; Fin 50; Fin 1013; Fin 800] with
    | Some batch => batch
    | None => []
    end.

(** The batch the model receives for the extreme temperature. *)
Definition hot_batch : Np.tensor3 :=
  Eval vm_compute in
    match input_batch_of demo_scaler [Fin 500; Fin 50; Fin 1013; Fin 800] with
    | Some batch => batch
    | None => []
    end.

(** What the model answers on that batch. *)
Definition warm_reconstruction : Np.matrix :=
  Eval vm_compute in
    match demo_model warm_batch with
    | [reconstructed] => reconstructed
    | _ => []
    end.

(** The form with the text nan in the temperature field. *)
Definition nan_checker : AnomalyChecker :=
  with_texts "nan" "50.0" "1013.0" "800.0" demo_checker.

(** A model that answers nan at every position of the array it is given,
    as a network whose weights have diverged does; the control it gives,
    and the batch it receives for the default reading of the form. *)
Definition nan_model : Model :=
  map (map (map (fun _ : pyfloat => NaN))).

Definition nan_model_checker : AnomalyChecker :=
  init (mkAssets true true (inl nan_model) (inl demo_scaler)).

Definition default_batch : Np.tensor3 :=
  Eval vm_compute in
    match input_batch_of demo_scaler [Fin 25; Fin 50; Fin 1013; Fin 800] with
    | Some batch => batch
    | None => []
    end.

(** A scaler that answers with three columns instead of four, and the
    control it gives. *)
Definition narrow_scaler : Scaler := map (firstn 3).

Definition narrow_checker : AnomalyChecker :=
  init (mkAssets true true (inl demo_model) (inl narrow_scaler)).

(** The form with a rejected text in the humidity field. *)
Definition bad_humidity_checker : AnomalyChecker :=
  with_texts "25.0" "fifty" "1013.0" "800.0" demo_checker.

(** Start-up without the scaler file, and with a scaler file that
    [joblib.load] cannot read. *)
Definition no_scaler_file : Assets :=
  mkAssets true false (inl demo_model) (inl demo_scaler).

Definition broken_scaler_file : Assets :=
  mkAssets true true (inl demo_model) (inr "invalid load key").

End Sample.

(* ================================================================== *)
(** * Data/FetchData.py: the serial log collector *)
(* ================================================================== *)

Module Collector.

(** What [readline] returns. *)
Definition bytes := list byte.

(** A Python text: its code points. *)
Definition str := list N.

(** The code points of an ASCII literal. *)
Definition lit (s : string) : str :=
  map Byte.to_N (list_byte_of_string s).

Definition byte_eqb (a b : byte) : bool := N.eqb (Byte.to_N a) (Byte.to_N b).

(** [s.startswith(p)] *)
Fixpoint startswith {A : Type} (eqb : A -> A -> bool) (s p : list A)
         {struct p} : bool :=
  match p, s with
  | [], _ => true
  | x :: p', y :: s' => eqb x y && startswith eqb s' p'
  | _ :: _, [] => false
  end.

(** The marker of a log line, b"[Logs] ". *)
Definition MARKER : bytes := list_byte_of_string "[Logs] ".

(** A continuation byte of UTF-8. *)
Definition is_cont (b : N) : bool := (128 <=? b)%N && (b <=? 191)%N.

Definition in_range (lo hi b : N) : bool := (lo <=? b)%N && (b <=? hi)%N.

(** [data.decode('utf-8')]: the strict decoder.  [None] is the
    UnicodeDecodeError raised on a stray continuation byte, an overlong
    form, a surrogate, a value above U+10FFFF or a truncated sequence. *)
Fixpoint decode_utf8 (data : list N) : option str :=
  match data with
  | [] => Some []
  | b0 :: r0 =>
      if (b0 <? 128)%N then
        option_map (cons b0) (decode_utf8 r0)
      else if in_range 194 223 b0 then
        match r0 with
        | b1 :: r1 =>
            if is_cont b1
            then option_map (cons ((b0 - 192) * 64 + (b1 - 128))%N)
                            (decode_utf8 r1)
            else None
        | _ => None
        end
      else if in_range 224 239 b0 then
        match r0 with
        | b1 :: b2 :: r2 =>
            if in_range (if (b0 =? 224)%N then 160 else 128)
                        (if (b0 =? 237)%N then 159 else 191) b1
               && is_cont b2
            then option_map
                   (cons ((b0 - 224) * 4096 + (b1 - 128) * 64 + (b2 - 128))%N)
                   (decode_utf8 r2)
            else None
        | _ => None
        end
      else if in_range 240 244 b0 then
        match r0 with
        | b1 :: b2 :: b3 :: r3 =>
            if in_range (if (b0 =? 240)%N then 144 else 128)
                        (if (b0 =? 244)%N then 143 else 191) b1
               && is_cont b2 && is_cont b3
            then option_map
                   (cons ((b0 - 240) * 262144 + (b1 - 128) * 4096
                          + (b2 - 128) * 64 + (b3 - 128))%N)
                   (decode_utf8 r3)
            else None
        | _ => None
        end
      else None
  end.

Definition decode (data : bytes) : option str :=
  decode_utf8 (map Byte.to_N data).

(** [c.isspace()] *)
Definition isspace (c : N) : bool :=
  in_range 9 13 c || in_range 28 32 c || (c =? 133)%N || (c =? 160)%N
  || (c =? 5760)%N || in_range 8192 8202 c || (c =? 8232)%N
  || (c =? 8233)%N || (c =? 8239)%N || (c =? 8287)%N || (c =? 12288)%N.

Fixpoint lstrip (s : str) : str :=
  match s with
  | c :: rest => if isspace c then lstrip rest else s
  | [] => []
  end.

Definition rstrip (s : str) : str := rev (lstrip (rev s)).

(** [s.strip()] *)
Definition strip (s : str) : str := rstrip (lstrip s).

(** Scan of [s.replace(old, new)] for a non-empty [old]: [skip] counts
    the characters of a match that are still to be passed over. *)
Fixpoint replace_aux (old new : str) (skip : nat) (s : str) : str :=
  match s with
  | [] => []
  | c :: rest =>
      match skip with
      | S k => replace_aux old new k rest
      | O =>
          if startswith N.eqb s old
          then new ++ replace_aux old new (length old - 1) rest
          else c :: replace_aux old new 0 rest
      end
  end.

(** [s.replace(old, new)], matches taken from left to right without
    overlap. *)
Definition replace (s old new : str) : str := replace_aux old new 0 s.

(** [s.split(sep)] for a separator of one character. *)
Fixpoint split (sep : N) (s : str) : list str :=
  match s with
  | [] => [[]]
  | c :: rest =>
      if (c =? sep)%N then [] :: split sep rest
      else
        match split sep rest with
        | field :: fields => (c :: field) :: fields
        | [] => [[c]]
        end
  end.

(** What [datetime.datetime.now()] returns. *)
Record datetime : Type := mkDatetime {
  year : nat; month : nat; day : nat;
  hour : nat; minute : nat; second : nat
}.

Definition digit (n : nat) : N := (48 + N.of_nat (n mod 10))%N.

Definition pad2 (n : nat) : str := [digit (n / 10); digit n].
Definition pad4 (n : nat) : str :=
  [digit (n / 1000); digit (n / 100); digit (n / 10); digit n].

(** [now.strftime("%Y-%m-%d %H:%M:%S")] *)
Definition strftime (now : datetime) : str :=
  pad4 (year now) ++ lit "-" ++ pad2 (month now) ++ lit "-" ++ pad2 (day now)
  ++ lit " "
  ++ pad2 (hour now) ++ lit ":" ++ pad2 (minute now) ++ lit ":"
  ++ pad2 (second now).

(** The log file and what was printed.  The file is the text written to
    it; its encoding and the newline convention of the platform are not
    modelled. *)
Record World : Type := mkWorld {
  logs_csv : str;
  stdout : list (list str)
}.

Inductive error : Type := UnicodeDecodeError.

(** One turn of the loop on the line [data], read when the clock shows
    [now]: the world after it, or the exception that ends the program. *)
Definition step (now : datetime) (data : bytes) (w : World) : error + World :=
  if startswith byte_eqb data MARKER then
    let timestamp := strftime now in
    match decode data with
    | None => inl UnicodeDecodeError
    | Some text =>
        let newdata := strip text in
        let newdata := timestamp ++ lit "," ++ newdata in
        let newdata := replace newdata (lit " ") (lit "") in
        let newdata := replace newdata (lit "[Logs]") (lit "") in
        let actualdata := split 44 newdata in
        inr (mkWorld (logs_csv w ++ (newdata ++ [10%N]))
                     (stdout w ++ [actualdata]))
    end
  else inr w.

(** The loop over the lines the device delivers, each with the time at
    which it is read.  The program has no exit of its own: it runs until a
    line raises. *)
Fixpoint run (input : list (datetime * bytes)) (w : World) : error + World :=
  match input with
  | [] => inr w
  | (now, data) :: rest =>
      match step now data w with
      | inl e => inl e
      | inr w' => run rest w'
      end
  end.

(** The record the specification describes for a marked line: the
    generated timestamp, a comma, and the payload (the line without its
    marker) with the whitespace around it stripped, on one line. *)
Definition described_record (now : datetime) (data : bytes) : option str :=
  option_map (fun payload => strftime now ++ lit "," ++ strip payload ++ [10%N])
             (decode (skipn (length MARKER) data)).

(** The timestamp as it reaches the file: [strftime] without the space
    between the date and the time. *)
Definition compact_timestamp (now : datetime) : str :=
  pad4 (year now) ++ lit "-" ++ pad2 (month now) ++ lit "-" ++ pad2 (day now)
  ++ pad2 (hour now) ++ lit ":" ++ pad2 (minute now) ++ lit ":"
  ++ pad2 (second now).

(** Every character but the space. *)
Definition not_space (c : N) : bool := negb (N.eqb 32 c).

(** The decoded line as it reaches the file: stripped, then without any
    space, then what [replace] leaves of it when it removes the marker
    word from left to right. *)
Definition squeezed (text : str) : str :=
  replace (replace (strip text) (lit " ") (lit "")) (lit "[Logs]") (lit "").

(** The record the collector writes for a decoded line. *)
Definition written_record (now : datetime) (text : str) : str :=
  (compact_timestamp now ++ lit "," ++ squeezed text) ++ [10%N].

(** What [readline] delivers: no newline byte before the last byte. *)
Definition no_inner_newline (data : bytes) : Prop :=
  ~ In x0a (removelast data).

Definition empty_world : World := mkWorld [] [].

(** The text in the log after one turn of the loop on an empty log. *)
Definition logs_csv_after (now : datetime) (data : bytes) : option str :=
  match step now data empty_world with
  | inr w => Some (logs_csv w)
  | inl _ => None
  end.

(** [sep.join(fields)] for a separator of one character. *)
Fixpoint join (sep : N) (fields : list str) : str :=
  match fields with
  | [] => []
  | [field] => field
  | field :: rest => field ++ sep :: join sep rest
  end.

(** Every byte is below 128. *)
Definition is_ascii (data : bytes) : bool :=
  forallb (fun b => (Byte.to_N b <? 128)%N) data.

(** Neither a comma nor a space. *)
Definition field_char (c : N) : bool := negb (N.eqb c 44) && not_space c.

(** The payload of a marked line as it reaches the file: without the
    whitespace at its end, then without any space, then what [replace]
    leaves of it when it removes the marker word from left to right (a
    marker word that the removal itself puts together stays). *)
Definition squeezed_payload (payload : str) : str :=
  replace (filter not_space (rstrip payload)) (lit "[Logs]") (lit "").

(** The line begins with the marker. *)
Definition is_marked (data : bytes) : bool := startswith byte_eqb data MARKER.

(** The line is marked and is not UTF-8. *)
Definition is_fatal (data : bytes) : bool :=
  is_marked data
  && match decode data with Some _ => false | None => true end.

(** The number of newline characters of a text. *)
Definition newlines (s : str) : nat := length (filter (N.eqb 10) s).

(** Sample data. *)
Definition demo_now : datetime := mkDatetime 2024 3 5 14 7 9.
Definition demo_line : bytes :=
  list_byte_of_string "[Logs] 25.5,60.1,1013.2,812" ++ [x0d; x0a].

(** Three lines as the device delivers them: a boot message, a line of
    values and a line with the marker alone. *)
Definition demo_input : list (datetime * bytes) :=
  [(demo_now, list_byte_of_string "boot ok" ++ [x0a]);
   (demo_now, demo_line);
   (mkDatetime 2024 3 5 14 7 10, MARKER ++ [x0d; x0a])].

End Collector.

(* ================================================================== *)
(** * Proof steps *)
(* ================================================================== *)

(** Unfolds one run of [analyze_inputs] down to the values of the
    collaborators. *)
Ltac run_analyze :=
  cbv [App.analyze_inputs App.bind App.get App.try_except App.float App.emit
       App.ret App.raise App.modify App.update App.transform App.predict
       App.reshape].

(** Reduces the accesses to the control a first call left behind. *)
Ltac again :=
  cbn [fst snd app App.model App.scaler App.txt_temp App.txt_hum
       App.txt_press App.txt_soil
       App.with_lbl_result_value App.with_lbl_result_color
       App.with_lbl_score_value App.with_progress_bar_value
       App.with_progress_bar_color App.with_lbl_loss_value
       App.with_result_card_visible].

(* ================================================================== *)
(** * Properties of the floating-point operations *)
(* ================================================================== *)

Section FloatFacts.

Lemma Qsign_pos (q : Q) : (0 < q)%Q -> Qsign q = Gt.
Proof.
  intro H. unfold Qsign. apply Qgt_alt. exact H.
Qed.

Lemma Qcompare_le (a b : Q) : (a <= b)%Q <-> (a ?= b)%Q <> Gt.
Proof. apply Qle_alt. Qed.

Lemma fle_Fin (a b : Q) : fle (Fin a) (Fin b) = true <-> (a <= b)%Q.
Proof.
  simpl. rewrite Qcompare_le.
  destruct (a ?= b)%Q; split; intro H; try reflexivity; try discriminate;
    congruence.
Qed.

Lemma flt_Fin (a b : Q) : flt (Fin a) (Fin b) = true <-> (a < b)%Q.
Proof.
  simpl. rewrite Qlt_alt.
  destruct (a ?= b)%Q; split; intro H; try reflexivity; discriminate.
Qed.

Lemma flt_Fin_false (a b : Q) : flt (Fin a) (Fin b) = false <-> (b <= a)%Q.
Proof.
  rewrite <- Bool.not_true_iff_false, flt_Fin. split.
  - apply Qnot_lt_le.
  - apply Qle_not_lt.
Qed.

(** A value that is at most another one is not strictly above it. *)
Lemma fle_not_fgt (x y : pyfloat) : fle x y = true -> fgt x y = false.
Proof.
  unfold fgt. destruct x as [a| | |], y as [b| | |]; simpl; try congruence.
  rewrite <- (Qcompare_antisym a b).
  destruct (a ?= b)%Q; simpl; congruence.
Qed.

Lemma feqb_not_fgt (x y : pyfloat) : feqb x y = true -> fgt x y = false.
Proof.
  unfold feqb. intro H. apply andb_true_iff in H. apply fle_not_fgt, H.
Qed.

(** Outside nan, not strictly above means at most. *)
Lemma not_fgt_fle (x y : pyfloat) :
  is_nan x = false -> is_nan y = false -> fgt x y = false -> fle x y = true.
Proof.
  unfold fgt. destruct x as [a| | |], y as [b| | |]; simpl; try congruence.
  rewrite <- (Qcompare_antisym a b).
  destruct (a ?= b)%Q; simpl; congruence.
Qed.

Lemma fabs_fsub_comm (x y : pyfloat) : fabs (fsub x y) = fabs (fsub y x).
Proof.
  destruct x as [a| | |], y as [b| | |]; simpl; try reflexivity.
  f_equal. destruct a as [an ad], b as [bn bd].
  unfold Qabs, Qplus, Qopp; simpl.
  f_equal.
  - replace (bn * Z.pos ad + - an * Z.pos bd)%Z
      with (- (an * Z.pos bd + - bn * Z.pos ad))%Z by ring.
    symmetry. apply Z.abs_opp.
  - apply Pos.mul_comm.
Qed.

End FloatFacts.

(* ================================================================== *)
(** * Properties of the array operations *)
(* ================================================================== *)

Section ArrayFacts.

Lemma firstn_length_app {A : Type} (l l' : list A) :
  firstn (length l) (l ++ l') = l.
Proof. induction l as [|x l IH]; simpl; [destruct l'|]; congruence. Qed.

Lemma skipn_length_app {A : Type} (l l' : list A) :
  skipn (length l) (l ++ l') = l'.
Proof. induction l as [|x l IH]; simpl; trivial. Qed.

Lemma chunks_aux_concat {A : Type} (c : nat) (m : list (list A)) :
  0 < c -> Forall (fun r => length r = c) m ->
  forall fuel, length m <= fuel -> Np.chunks_aux fuel c (concat m) = m.
Proof.
  intros Hc Hm. induction Hm as [|r m Hr Hm IH]; intros fuel Hfuel.
  - destruct fuel; reflexivity.
  - destruct fuel as [|fuel]; [simpl in Hfuel; lia|].
    simpl concat. subst c.
    assert (Hne : r ++ concat m <> []).
    { destruct r; [simpl in Hc; lia|discriminate]. }
    destruct (r ++ concat m) as [|y rest] eqn:E; [congruence|].
    cbn [Np.chunks_aux]. rewrite <- E.
    rewrite firstn_length_app, skipn_length_app.
    f_equal. apply IH. simpl in Hfuel. lia.
Qed.

Lemma length_concat_uniform {A : Type} (c : nat) (m : list (list A)) :
  Forall (fun r => length r = c) m -> length (concat m) = length m * c.
Proof.
  induction 1 as [|r m Hr Hm IH]; simpl; [reflexivity|].
  rewrite length_app, IH, Hr. reflexivity.
Qed.

(** Cutting the rows of a matrix out of its elements gives it back. *)
Lemma chunks_concat {A : Type} (c : nat) (m : list (list A)) :
  0 < c -> Forall (fun r => length r = c) m -> Np.chunks c (concat m) = m.
Proof.
  intros Hc Hm. unfold Np.chunks. apply chunks_aux_concat; trivial.
  rewrite (length_concat_uniform _ _ Hm). nia.
Qed.

(** A list of [n] elements is one piece of [n]. *)
Lemma chunks_whole {A : Type} (l : list A) :
  l <> [] -> Np.chunks (length l) l = [l].
Proof.
  intro Hl. unfold Np.chunks. destruct l as [|x l]; [congruence|].
  cbn [length Np.chunks_aux].
  change (S (length l)) with (length (x :: l)).
  rewrite firstn_all, skipn_all. destruct (length l); reflexivity.
Qed.

Lemma repeat_single (r : Np.row) (n : nat) : Np.repeat [r] n = List.repeat r n.
Proof. unfold Np.repeat. simpl. apply app_nil_r. Qed.

(** A row of [c] values repeated [n] times reshapes to one sequence of
    [n] copies of the row. *)
Lemma reshape_repeat_row (r : Np.row) (n c : nat) :
  0 < n -> 0 < c -> length r = c ->
  Np.reshape (Np.repeat [r] n) 1 n c = Some [List.repeat r n].
Proof.
  intros Hn Hc Hr. unfold Np.reshape. rewrite repeat_single.
  assert (Hall : Forall (fun x : list pyfloat => length x = c) (List.repeat r n)).
  { apply Forall_forall. intros x Hx. apply repeat_spec in Hx. now subst. }
  rewrite (length_concat_uniform _ _ Hall), repeat_length.
  replace (1 * n * c) with (n * c) by lia. rewrite Nat.eqb_refl.
  rewrite (chunks_concat _ _ Hc Hall).
  rewrite <- (repeat_length r n) at 1.
  rewrite chunks_whole; [reflexivity|].
  destruct n; [lia|discriminate].
Qed.

(** ** Sign of a mean of absolute values *)

Lemma fabs_nan_or_nonneg (x : pyfloat) : nan_or_nonneg (fabs x).
Proof.
  destruct x as [q| | |]; [right|right|right|left]; try reflexivity.
  unfold zero. simpl fabs. apply fle_Fin, Qabs_nonneg.
Qed.

Lemma fadd_nan_or_nonneg (x y : pyfloat) :
  nan_or_nonneg x -> nan_or_nonneg y -> nan_or_nonneg (fadd x y).
Proof.
  unfold nan_or_nonneg, zero.
  destruct x as [a| | |], y as [b| | |]; simpl; intros [Hx|Hx] [Hy|Hy];
    try discriminate; auto.
  right. apply (fle_Fin 0 (a + b)).
  apply (fle_Fin 0 a) in Hx. apply (fle_Fin 0 b) in Hy. lra.
Qed.

Lemma fold_fadd_nan_or_nonneg (l : list pyfloat) :
  Forall nan_or_nonneg l ->
  forall acc, nan_or_nonneg acc -> nan_or_nonneg (fold_left fadd l acc).
Proof.
  induction 1 as [|x l Hx Hl IH]; intros acc Hacc; simpl; [exact Hacc|].
  apply IH, fadd_nan_or_nonneg; assumption.
Qed.

Lemma of_nat_sign (n : nat) :
  Qsign (inject_Z (Z.of_nat n)) = Eq \/ Qsign (inject_Z (Z.of_nat n)) = Gt.
Proof.
  destruct n as [|n]; [left; reflexivity|right].
  apply Qsign_pos. change 0%Q with (inject_Z 0). rewrite <- Zlt_Qlt. lia.
Qed.

Lemma fdiv_count_nan_or_nonneg (x : pyfloat) (n : nat) :
  nan_or_nonneg x -> nan_or_nonneg (fdiv x (of_nat n)).
Proof.
  unfold nan_or_nonneg, of_nat, zero. intro Hx.
  destruct x as [a| | |]; simpl in *.
  - destruct Hx as [Hx|Hx]; [discriminate|].
    apply (fle_Fin 0 a) in Hx.
    destruct (of_nat_sign n) as [Hn|Hn]; rewrite Hn.
    + unfold Qsign. destruct (a ?= 0)%Q eqn:Ha; simpl; auto.
      apply Qlt_alt in Ha. lra.
    + right. apply (fle_Fin 0 (a / inject_Z (Z.of_nat n))).
      unfold Qsign in Hn. apply Qgt_alt in Hn.
      apply Qle_shift_div_l; [exact Hn|]. lra.
  - destruct (of_nat_sign n) as [Hn|Hn]; rewrite Hn; auto.
  - destruct Hx; discriminate.
  - auto.
Qed.

Lemma ravel_abs (t : Np.tensor3) :
  Np.ravel (Np.abs t) = map fabs (Np.ravel t).
Proof.
  unfold Np.ravel, Np.abs. rewrite !concat_map. reflexivity.
Qed.

(** The mean of absolute values is never negative: it is nan or at least
    zero. *)
Lemma mean_abs_nan_or_nonneg (t : Np.tensor3) :
  nan_or_nonneg (Np.mean (Np.abs t)).
Proof.
  unfold Np.mean. apply fdiv_count_nan_or_nonneg.
  unfold Np.sum. apply fold_fadd_nan_or_nonneg.
  - rewrite ravel_abs. apply Forall_forall. intros x Hx.
    apply in_map_iff in Hx. destruct Hx as [y [<- _]].
    apply fabs_nan_or_nonneg.
  - right. reflexivity.
Qed.

End ArrayFacts.

Section MeanFacts.

Lemma fold_fadd_finite (l : list pyfloat) :
  forallb is_finite l = true ->
  forall acc, is_finite acc = true -> is_finite (fold_left fadd l acc) = true.
Proof.
  induction l as [|x l IH]; simpl; intros Hl acc Hacc; [exact Hacc|].
  apply andb_true_iff in Hl. destruct Hl as [Hx Hl].
  apply IH; [exact Hl|].
  destruct acc, x; simpl in *; congruence.
Qed.

(** The mean of a non-empty array of finite values is finite. *)
Lemma mean_finite (t : Np.tensor3) :
  Np.all_finite t = true -> Np.ravel t <> [] -> is_finite (Np.mean t) = true.
Proof.
  unfold Np.all_finite, Np.mean, Np.sum. intros Hfin Hne.
  pose proof (fold_fadd_finite (Np.ravel t) Hfin zero eq_refl) as Hsum.
  destruct (fold_left fadd (Np.ravel t) zero) as [a| | |]; try discriminate.
  unfold of_nat. simpl.
  destruct (of_nat_sign (length (Np.ravel t))) as [Hn|Hn]; rewrite Hn;
    [|reflexivity].
  exfalso. destruct (Np.ravel t) as [|x r]; [congruence|].
  unfold Qsign in Hn. apply Qeq_alt in Hn.
  unfold Qeq in Hn. cbn [Qnum Qden inject_Z length] in Hn. lia.
Qed.

End MeanFacts.

(* ================================================================== *)
(** * Runs of [analyze_inputs] *)
(* ================================================================== *)

Section Runs.
Import App.

Variable float_of : string -> option pyfloat.

(** Without a model or without a scaler the method only reports it. *)
Lemma run_not_loaded (self : AnomalyChecker) :
  model self = None \/ scaler self = None ->
  analyze_inputs float_of self
  = (Ok tt, shown_message "Model not loaded!" self, [EvUpdate]).
Proof.
  intro H. run_analyze.
  destruct H as [H|H]; rewrite H; [|destruct (model self)]; reflexivity.
Qed.

(** With both assets, four parsed fields and a batch of the right size,
    the method scores the reading and shows one of the two verdicts. *)
Lemma run_scored (self : AnomalyChecker) (m : Model) (s : Scaler)
      (v1 v2 v3 v4 : pyfloat) (batch : Np.tensor3) :
  model self = Some m -> scaler self = Some s ->
  float_of (txt_temp self) = Some v1 -> float_of (txt_hum self) = Some v2 ->
  float_of (txt_press self) = Some v3 -> float_of (txt_soil self) = Some v4 ->
  input_batch_of s [v1; v2; v3; v4] = Some batch ->
  analyze_inputs float_of self
  = (Ok tt,
     (if fgt (mae_loss_of m batch) DEFAULT_THRESHOLD
      then shown_anomaly (mae_loss_of m batch) self
      else shown_normal (mae_loss_of m batch) self),
     [EvFloat (txt_temp self); EvFloat (txt_hum self);
      EvFloat (txt_press self); EvFloat (txt_soil self);
      EvTransform [[v1; v2; v3; v4]]; EvPredict batch; EvUpdate]).
Proof.
  intros Hm Hs H1 H2 H3 H4 Hb. unfold input_batch_of in Hb. run_analyze.
  rewrite Hm, Hs, H1, H2, H3, H4. cbn [app]. rewrite Hb. cbn [app].
  fold (mae_loss_of m batch).
  destruct (fgt (mae_loss_of m batch) DEFAULT_THRESHOLD); reflexivity.
Qed.

(** With both assets and a rejected field, the handler runs on the
    untouched control, after calls of [float] only. *)
Lemma run_rejected (self : AnomalyChecker) (m : Model) (s : Scaler) :
  model self = Some m -> scaler self = Some s ->
  some_field_rejected float_of self ->
  exists calls,
    analyze_inputs float_of self
    = (Ok tt,
       shown_message "Invalid Input: Please enter numbers only." self,
       calls ++ [EvUpdate])
    /\ forallb is_float_call calls = true.
Proof.
  intros Hm Hs H. unfold some_field_rejected in H. run_analyze.
  rewrite Hm, Hs.
  destruct (float_of (txt_temp self)) as [v1|];
    [|exists [EvFloat (txt_temp self)]; split; reflexivity].
  destruct (float_of (txt_hum self)) as [v2|];
    [|exists [EvFloat (txt_temp self); EvFloat (txt_hum self)];
      split; reflexivity].
  destruct (float_of (txt_press self)) as [v3|];
    [|exists [EvFloat (txt_temp self); EvFloat (txt_hum self);
              EvFloat (txt_press self)]; split; reflexivity].
  destruct (float_of (txt_soil self)) as [v4|];
    [|exists [EvFloat (txt_temp self); EvFloat (txt_hum self);
              EvFloat (txt_press self); EvFloat (txt_soil self)];
      split; reflexivity].
  exfalso. destruct H as [H|[H|[H|H]]]; discriminate.
Qed.

End Runs.

(* ================================================================== *)
(** * The anomaly scorer: classification and errors *)
(* ================================================================== *)

Section Classification.
Import App.

Variable float_of : string -> option pyfloat.

(** C2.  For every valid numeric input, the model answering an array of
    the shape it is given, the verdict is Anomaly exactly when the raw
    error is strictly above the threshold; an error equal to the threshold
    is classified Normal. *)
Theorem classification_is_strict
        (self : AnomalyChecker) (m : Model) (s : Scaler)
        (v1 v2 v3 v4 : pyfloat) (batch : Np.tensor3) :
  model self = Some m -> scaler self = Some s ->
  float_of (txt_temp self) = Some v1 -> float_of (txt_hum self) = Some v2 ->
  float_of (txt_press self) = Some v3 -> float_of (txt_soil self) = Some v4 ->
  input_batch_of s [v1; v2; v3; v4] = Some batch ->
  Np.has_shape 1 TIME_STEPS 4 (m batch) = true ->
  let err := mae_loss_of m batch in
  let after := run_state float_of self in
  lbl_loss_value after = LossValue err
  /\ (lbl_result_value after = "ANOMALY DETECTED"%string
      <-> fgt err DEFAULT_THRESHOLD = true)
  /\ (lbl_result_value after = "STATUS NORMAL"%string
      <-> fgt err DEFAULT_THRESHOLD = false)
  /\ (feqb err DEFAULT_THRESHOLD = true
      -> lbl_result_value after = "STATUS NORMAL"%string).
Proof.
  intros Hm Hs H1 H2 H3 H4 Hb _ err after.
  assert (Hrun : after = if fgt err DEFAULT_THRESHOLD
                         then shown_anomaly err self
                         else shown_normal err self).
  { unfold after, run_state.
    rewrite (run_scored float_of self _ _ _ _ _ _ _ Hm Hs H1 H2 H3 H4 Hb). reflexivity. }
  rewrite Hrun.
  destruct (fgt err DEFAULT_THRESHOLD) eqn:Hgt.
  - repeat split; trivial; try discriminate.
    intro Heq. apply feqb_not_fgt in Heq. congruence.
  - repeat split; trivial; discriminate.
Qed.

End Classification.

(** A temperature one degree above the default: the error stays under
    the threshold and the verdict is Normal. *)
Lemma classification_is_strict_witness :
  Np.has_shape 1 App.TIME_STEPS 4 (Sample.demo_model Sample.warm_batch) = true
  /\ fgt (App.mae_loss_of Sample.demo_model Sample.warm_batch)
         App.DEFAULT_THRESHOLD = false
  /\ App.lbl_result_value
       (App.run_state Sample.float_fragment Sample.warm_checker)
     = "STATUS NORMAL"%string.
Proof.
  assert (Hshape : Np.has_shape 1 App.TIME_STEPS 4
                     (Sample.demo_model Sample.warm_batch) = true)
    by (vm_compute; reflexivity).
  assert (Hgt : fgt (App.mae_loss_of Sample.demo_model Sample.warm_batch)
                    App.DEFAULT_THRESHOLD = false)
    by (vm_compute; reflexivity).
  split; [exact Hshape|]. split; [exact Hgt|].
  destruct (@classification_is_strict Sample.float_fragment
              Sample.warm_checker Sample.demo_model Sample.demo_scaler
              (Fin 26) (Fin 50) (Fin 1013) (Fin 800) Sample.warm_batch
              eq_refl eq_refl eq_refl eq_refl eq_refl eq_refl eq_refl
              Hshape)
    as [_ [_ [Hnormal _]]].
  apply Hnormal, Hgt.
Defined.

Section ErrorPaths.
Import App.

Variable float_of : string -> option pyfloat.

Lemma float_calls_no_predict (calls : list event) :
  forallb is_float_call calls = true ->
  existsb is_predict_call (calls ++ [EvUpdate]) = false.
Proof.
  induction calls as [|e calls IH]; simpl; [reflexivity|].
  intro H. apply andb_true_iff in H. destruct H as [He H].
  destruct e; try discriminate. simpl. apply IH, H.
Qed.

(** C4.  When [float] rejects one of the four texts, the method ends
    normally, the model is not called, and with both assets loaded the
    result label shows the invalid-input message on the visible card. *)
Theorem rejected_field_reports_invalid_input (self : AnomalyChecker) :
  some_field_rejected float_of self ->
  run_result float_of self = Ok tt
  /\ existsb is_predict_call (run_trace float_of self) = false
  /\ (model self <> None -> scaler self <> None ->
      lbl_result_value (run_state float_of self)
      = "Invalid Input: Please enter numbers only."%string
      /\ lbl_result_color (run_state float_of self) = RED
      /\ result_card_visible (run_state float_of self) = true).
Proof.
  intro H. unfold run_result, run_trace, run_state.
  destruct (model self) as [m|] eqn:Hm.
  - destruct (scaler self) as [s|] eqn:Hs.
    + destruct (run_rejected float_of self _ _ Hm Hs H) as [calls [Hrun Hcalls]].
      rewrite Hrun. cbn [fst snd].
      repeat split; trivial. apply float_calls_no_predict, Hcalls.
    + rewrite (run_not_loaded float_of self (or_intror Hs)). cbn [fst snd].
      repeat split; trivial; congruence.
  - rewrite (run_not_loaded float_of self (or_introl Hm)). cbn [fst snd].
    repeat split; trivial; congruence.
Qed.

(** C10.  When a scoring attempt fails on a text [float] rejects, the
    method writes the result label (text and colour) and shows the card,
    and nothing else: the raw error, the severity and the progress bar
    stay as the last analysis left them. *)
Theorem rejected_field_keeps_last_result
        (self : AnomalyChecker) (m : Model) (s : Scaler) :
  model self = Some m -> scaler self = Some s ->
  some_field_rejected float_of self ->
  let after := run_state float_of self in
  after = shown_message "Invalid Input: Please enter numbers only." self
  /\ lbl_loss_value after = lbl_loss_value self
  /\ lbl_score_value after = lbl_score_value self
  /\ progress_bar_value after = progress_bar_value self
  /\ progress_bar_color after = progress_bar_color self
  /\ lbl_result_value after
     = "Invalid Input: Please enter numbers only."%string
  /\ lbl_result_color after = RED
  /\ result_card_visible after = true.
Proof.
  intros Hm Hs H after.
  destruct (run_rejected float_of self _ _ Hm Hs H) as [calls [Hrun _]].
  assert (E : after
              = shown_message "Invalid Input: Please enter numbers only." self).
  { unfold after, run_state. rewrite Hrun. reflexivity. }
  rewrite E. repeat split.
Qed.

Lemma init_without_assets (fs : Assets) :
  assets_available fs = false ->
  model (init fs) = None \/ scaler (init fs) = None.
Proof.
  unfold assets_available, init, load_assets.
  destruct (model_exists fs), (scaler_exists fs); simpl; auto.
  destruct (load_model fs), (joblib_load fs); simpl; auto; discriminate.
Qed.

(** C5.  When a file is missing or a loader fails, the control starts
    with a red status, and every later call of the method only reports
    that the model is not loaded: the one call it makes is the redraw, so
    no text is parsed, the scaler does not transform and the model does
    not predict. *)
Theorem missing_assets_block_scoring (fs : Assets) (self : AnomalyChecker) :
  assets_available fs = false ->
  model self = model (init fs) -> scaler self = scaler (init fs) ->
  status_color (init fs) = RED
  /\ analyze_inputs float_of self
     = (Ok tt, shown_message "Model not loaded!" self, [EvUpdate])
  /\ existsb (fun e => is_float_call e || is_transform_call e
                       || is_predict_call e)
             (run_trace float_of self) = false.
Proof.
  intros Hfs Hm Hs.
  assert (Hrun : analyze_inputs float_of self
                 = (Ok tt, shown_message "Model not loaded!" self, [EvUpdate])).
  { apply run_not_loaded. rewrite Hm, Hs. apply init_without_assets, Hfs. }
  split; [|split].
  - revert Hfs. unfold assets_available, init, load_assets.
    destruct (model_exists fs), (scaler_exists fs); simpl; trivial.
    destruct (load_model fs), (joblib_load fs); simpl; trivial; discriminate.
  - exact Hrun.
  - unfold run_trace. rewrite Hrun. reflexivity.
Qed.

End ErrorPaths.

Section ErrorPathExamples.
Import App Sample.

(** The text abc in the temperature field: the message, and no call of
    the model. *)
Lemma rejected_field_reports_invalid_input_witness :
  some_field_rejected float_fragment abc_checker
  /\ run_result float_fragment abc_checker = Ok tt
  /\ existsb is_predict_call (run_trace float_fragment abc_checker) = false
  /\ lbl_result_value (run_state float_fragment abc_checker)
     = "Invalid Input: Please enter numbers only."%string.
Proof.
  assert (H : some_field_rejected float_fragment abc_checker)
    by (left; reflexivity).
  destruct (@rejected_field_reports_invalid_input float_fragment abc_checker H)
    as [Hres [Hcalls Hshown]].
  destruct Hshown as [Hvalue _]; [discriminate|discriminate|].
  repeat split; assumption.
Defined.

(** The same text typed after an anomaly was shown: the error, the
    severity and the bar of that anomaly stay on the card. *)
Lemma rejected_field_keeps_last_result_witness :
  some_field_rejected float_fragment abc_after_hot_checker
  /\ lbl_loss_value (run_state float_fragment abc_after_hot_checker)
     = lbl_loss_value (run_state float_fragment hot_checker)
  /\ progress_bar_value (run_state float_fragment abc_after_hot_checker)
     = Fin 1
  /\ lbl_result_value (run_state float_fragment abc_after_hot_checker)
     = "Invalid Input: Please enter numbers only."%string.
Proof.
  assert (H : some_field_rejected float_fragment abc_after_hot_checker)
    by (left; reflexivity).
  destruct (@rejected_field_keeps_last_result float_fragment
              abc_after_hot_checker demo_model demo_scaler
              eq_refl eq_refl H)
    as [_ [Hloss [_ [Hbar [_ [Hvalue _]]]]]].
  split; [exact H|]. split; [|split].
  - rewrite Hloss. reflexivity.
  - rewrite Hbar. vm_compute. reflexivity.
  - exact Hvalue.
Defined.

(** Without the scaler file, whatever the form holds, the method stops
    at the guard. *)
Lemma missing_assets_block_scoring_witness :
  assets_available no_scaler_file = false
  /\ status (init no_scaler_file)
     = "Error: Model/Scaler files missing!"%string
  /\ run_trace float_fragment (init no_scaler_file) = [EvUpdate]
  /\ lbl_result_value (run_state float_fragment (init no_scaler_file))
     = "Model not loaded!"%string.
Proof.
  destruct (@missing_assets_block_scoring float_fragment no_scaler_file
              (init no_scaler_file) eq_refl eq_refl eq_refl)
    as [_ [Hrun _]].
  unfold run_trace, run_state. rewrite Hrun.
  repeat split.
Defined.

(** A scaler file that cannot be read leaves the model loaded and the
    scaler missing; the guard stops the method all the same. *)
Example broken_scaler_blocks_scoring :
  assets_available broken_scaler_file = false
  /\ model (init broken_scaler_file) = Some demo_model
  /\ scaler (init broken_scaler_file) = None
  /\ status (init broken_scaler_file)
     = "Error loading files: invalid load key"%string
  /\ run_trace float_fragment (init broken_scaler_file) = [EvUpdate].
Proof. repeat split. Qed.

End ErrorPathExamples.

(* ================================================================== *)
(** * The anomaly scorer: what a call depends on *)
(* ================================================================== *)

Section Purity.
Import App.

Variable float_of : string -> option pyfloat.

(** A scaled reading of the wrong size: the reshape raises, the handler
    reports invalid input. *)
Lemma run_reshape_failed (self : AnomalyChecker) (m : Model) (s : Scaler)
      (v1 v2 v3 v4 : pyfloat) :
  model self = Some m -> scaler self = Some s ->
  float_of (txt_temp self) = Some v1 -> float_of (txt_hum self) = Some v2 ->
  float_of (txt_press self) = Some v3 -> float_of (txt_soil self) = Some v4 ->
  input_batch_of s [v1; v2; v3; v4] = None ->
  run_state float_of self
  = shown_message "Invalid Input: Please enter numbers only." self.
Proof.
  intros Hm Hs H1 H2 H3 H4 Hb. unfold input_batch_of in Hb.
  unfold run_state. run_analyze.
  rewrite Hm, Hs, H1, H2, H3, H4. cbn [app]. rewrite Hb. reflexivity.
Qed.

(** The method never assigns the model or the scaler, nor the texts of
    the form. *)
Lemma run_keeps_inputs (self : AnomalyChecker) :
  let after := run_state float_of self in
  model after = model self /\ scaler after = scaler self
  /\ txt_temp after = txt_temp self /\ txt_hum after = txt_hum self
  /\ txt_press after = txt_press self /\ txt_soil after = txt_soil self.
Proof.
  destruct self as [mo sc st stc t h p so rv rc sv pv pc lv vis].
  unfold run_state. run_analyze.
  cbn [model scaler txt_temp txt_hum txt_press txt_soil].
  destruct mo as [m|]; [|repeat split].
  destruct sc as [s|]; [|repeat split].
  destruct (float_of t); [|repeat split].
  destruct (float_of h); [|repeat split].
  destruct (float_of p); [|repeat split].
  destruct (float_of so); [|repeat split].
  cbn [app].
  destruct (Np.reshape _ _ _ _); [|repeat split].
  destruct (fgt _ _); repeat split.
Qed.

(** A second call on the control the first call left behind returns the
    same result, makes the same calls and changes nothing more. *)
Lemma run_twice (self : AnomalyChecker) :
  analyze_inputs float_of (run_state float_of self)
  = (run_result float_of self, run_state float_of self,
     run_trace float_of self).
Proof.
  destruct self as [mo sc st stc t h p so rv rc sv pv pc lv vis].
  unfold run_state, run_result, run_trace. run_analyze.
  cbn [model scaler txt_temp txt_hum txt_press txt_soil].
  destruct mo as [m|]; [|reflexivity].
  destruct sc as [s|]; [|reflexivity].
  destruct (float_of t) eqn:E1; [|again; rewrite E1; reflexivity].
  destruct (float_of h) eqn:E2; [|again; rewrite E1, E2; reflexivity].
  destruct (float_of p) eqn:E3; [|again; rewrite E1, E2, E3; reflexivity].
  destruct (float_of so) eqn:E4;
    [|again; rewrite E1, E2, E3, E4; reflexivity].
  cbn [app].
  destruct (Np.reshape _ _ _ _) eqn:Hb;
    [|again; rewrite E1, E2, E3, E4; cbn [app]; rewrite Hb; reflexivity].
  destruct (fgt _ _) eqn:Hgt;
    again; rewrite E1, E2, E3, E4; cbn [app]; rewrite Hb; again;
    rewrite Hgt; reflexivity.
Qed.

(** C7.  A call of the method never assigns the model or the scaler; a
    second call on the control it leaves returns the same result, makes
    the same calls and shows the same; and what it shows for a parsed
    reading, the model answering an array of the shape it is given, is
    [score] of that reading, the scaler and the model, whatever the
    control showed before. *)
Theorem scoring_depends_on_reading_and_assets (self : AnomalyChecker) :
  let after := run_state float_of self in
  (model after = model self /\ scaler after = scaler self)
  /\ analyze_inputs float_of after
     = (run_result float_of self, after, run_trace float_of self)
  /\ (forall (m : Model) (s : Scaler) (v1 v2 v3 v4 : pyfloat),
        model self = Some m -> scaler self = Some s ->
        float_of (txt_temp self) = Some v1 ->
        float_of (txt_hum self) = Some v2 ->
        float_of (txt_press self) = Some v3 ->
        float_of (txt_soil self) = Some v4 ->
        (forall batch : Np.tensor3,
            input_batch_of s [v1; v2; v3; v4] = Some batch ->
            Np.has_shape 1 TIME_STEPS 4 (m batch) = true) ->
        match score s m [v1; v2; v3; v4] with
        | Some r =>
            lbl_loss_value after = LossValue (raw_error r)
            /\ lbl_score_value after
               = (if is_anomaly r then Severity (severity_percent r)
                  else Deviation (severity_percent r))
            /\ lbl_result_value after
               = (if is_anomaly r then "ANOMALY DETECTED"
                  else "STATUS NORMAL")%string
        | None =>
            after
            = shown_message "Invalid Input: Please enter numbers only." self
        end).
Proof.
  intros after. split; [|split].
  - split; apply (run_keeps_inputs self).
  - apply run_twice.
  - intros m s v1 v2 v3 v4 Hm Hs H1 H2 H3 H4 _. unfold score.
    destruct (input_batch_of s [v1; v2; v3; v4]) as [batch|] eqn:Hb.
    + cbn [raw_error severity_percent is_anomaly].
      unfold after, run_state.
      rewrite (run_scored float_of self _ _ _ _ _ _ _ Hm Hs H1 H2 H3 H4 Hb). cbn [fst snd].
      destruct (fgt (mae_loss_of m batch) DEFAULT_THRESHOLD);
        repeat split.
    + apply (run_reshape_failed self _ _ _ _ _ _ Hm Hs H1 H2 H3 H4 Hb).
Qed.

End Purity.

Section PurityExamples.
Import App Sample.

(** The extreme temperature of the specification: the card shows the
    score of the reading, an anomaly. *)
Lemma scoring_depends_on_reading_and_assets_witness :
  option_map is_anomaly
    (score demo_scaler demo_model [Fin 500; Fin 50; Fin 1013; Fin 800])
  = Some true
  /\ match score demo_scaler demo_model [Fin 500; Fin 50; Fin 1013; Fin 800]
     with
     | Some r =>
         lbl_loss_value (run_state float_fragment hot_checker)
         = LossValue (raw_error r)
         /\ lbl_score_value (run_state float_fragment hot_checker)
            = (if is_anomaly r then Severity (severity_percent r)
               else Deviation (severity_percent r))
         /\ lbl_result_value (run_state float_fragment hot_checker)
            = (if is_anomaly r then "ANOMALY DETECTED"
               else "STATUS NORMAL")%string
     | None =>
         run_state float_fragment hot_checker
         = shown_message "Invalid Input: Please enter numbers only."
             hot_checker
     end.
Proof.
  split; [vm_compute; reflexivity|].
  apply (proj2 (proj2 (@scoring_depends_on_reading_and_assets
                         float_fragment hot_checker)));
    try (vm_compute; reflexivity).
  intros batch Hb.
  assert (E : input_batch_of demo_scaler [Fin 500; Fin 50; Fin 1013; Fin 800]
              = Some hot_batch) by (vm_compute; reflexivity).
  rewrite E in Hb. injection Hb as <-. vm_compute. reflexivity.
Defined.

End PurityExamples.

(* ================================================================== *)
(** * The anomaly scorer: the progress bar *)
(* ================================================================== *)

Section ProgressBar.
Import App.

Variable float_of : string -> option pyfloat.

Lemma in_unit_interval_Fin (q : Q) :
  in_unit_interval (Fin q) = true <-> (0 <= q /\ q <= 1)%Q.
Proof.
  unfold in_unit_interval, zero, one.
  rewrite andb_true_iff, !fle_Fin. reflexivity.
Qed.

(** For an error that is at least zero, both branches leave a value of
    the bar between 0 and 1. *)
Lemma bar_value_in_unit_interval (err : pyfloat) :
  fle zero err = true ->
  in_unit_interval
    (if fgt err DEFAULT_THRESHOLD
     then py_min (fmul (fdiv err DEFAULT_THRESHOLD) (Fin (5 # 10))) (Fin 1)
     else fdiv err DEFAULT_THRESHOLD) = true.
Proof.
  intro Hpos. destruct err as [q| | |]; try discriminate; [|reflexivity].
  apply (fle_Fin 0 q) in Hpos.
  change (fdiv (Fin q) DEFAULT_THRESHOLD) with (Fin (q / (15 # 100))).
  unfold fgt, DEFAULT_THRESHOLD.
  destruct (flt (Fin (15 # 100)) (Fin q)) eqn:Hgt.
  - apply flt_Fin in Hgt. unfold py_min. cbn [fmul].
    destruct (flt (Fin 1) (Fin (q / (15 # 100) * (5 # 10)))) eqn:Hcap;
      [reflexivity|].
    apply flt_Fin_false in Hcap. apply in_unit_interval_Fin.
    split; [|exact Hcap].
    apply Qmult_le_0_compat; [|discriminate].
    apply Qle_shift_div_l; [reflexivity|]. lra.
  - apply flt_Fin_false in Hgt. apply in_unit_interval_Fin. split.
    + apply Qle_shift_div_l; [reflexivity|]. lra.
    + apply Qle_shift_div_r; [reflexivity|]. lra.
Qed.

(** C9, as the code has it.  After an analysis, the model answering an
    array of the shape it is given, whose raw error is not nan, the value
    of the progress bar lies in [0, 1]: in the Anomaly branch it is
    min(severity * 0.5, 1.0), in the Normal branch it is the severity
    ratio itself, and there the error is at most the threshold. *)
Theorem progress_bar_in_unit_interval
        (self : AnomalyChecker) (m : Model) (s : Scaler)
        (v1 v2 v3 v4 : pyfloat) (batch : Np.tensor3) :
  model self = Some m -> scaler self = Some s ->
  float_of (txt_temp self) = Some v1 -> float_of (txt_hum self) = Some v2 ->
  float_of (txt_press self) = Some v3 -> float_of (txt_soil self) = Some v4 ->
  input_batch_of s [v1; v2; v3; v4] = Some batch ->
  Np.has_shape 1 TIME_STEPS 4 (m batch) = true ->
  let err := mae_loss_of m batch in
  let ratio := fdiv err DEFAULT_THRESHOLD in
  let after := run_state float_of self in
  is_nan err = false ->
  in_unit_interval (progress_bar_value after) = true
  /\ (fgt err DEFAULT_THRESHOLD = true ->
      progress_bar_value after = py_min (fmul ratio (Fin (5 # 10))) (Fin 1))
  /\ (fgt err DEFAULT_THRESHOLD = false ->
      progress_bar_value after = ratio
      /\ fle err DEFAULT_THRESHOLD = true).
Proof.
  intros Hm Hs H1 H2 H3 H4 Hb _ err ratio after Hnan.
  assert (Hpos : fle zero err = true).
  { destruct (mean_abs_nan_or_nonneg (Np.sub (m batch) batch)) as [H|H];
      [|exact H].
    fold (mae_loss_of m batch) in H. fold err in H. congruence. }
  assert (Hrun : progress_bar_value after
                 = if fgt err DEFAULT_THRESHOLD
                   then py_min (fmul ratio (Fin (5 # 10))) (Fin 1)
                   else ratio).
  { unfold after, run_state.
    rewrite (run_scored float_of self _ _ _ _ _ _ _ Hm Hs H1 H2 H3 H4 Hb). cbn [fst snd].
    fold err. destruct (fgt err DEFAULT_THRESHOLD); reflexivity. }
  split; [|split].
  - rewrite Hrun. apply bar_value_in_unit_interval, Hpos.
  - intro Hgt. rewrite Hrun, Hgt. reflexivity.
  - intro Hgt. rewrite Hrun, Hgt. split; [reflexivity|].
    apply not_fgt_fle; trivial.
Qed.

End ProgressBar.

Section ProgressBarExamples.
Import App Sample.

(** A reading one degree off the default: a Normal verdict with the bar
    at the severity ratio. *)
Lemma progress_bar_in_unit_interval_witness :
  Np.has_shape 1 TIME_STEPS 4 (demo_model warm_batch) = true
  /\ is_nan (mae_loss_of demo_model warm_batch) = false
  /\ lbl_result_value (run_state float_fragment warm_checker)
     = "STATUS NORMAL"%string
  /\ in_unit_interval
       (progress_bar_value (run_state float_fragment warm_checker)) = true.
Proof.
  split; [vm_compute; reflexivity|].
  split; [vm_compute; reflexivity|].
  split; [vm_compute; reflexivity|].
  apply (@progress_bar_in_unit_interval float_fragment warm_checker
           demo_model demo_scaler (Fin 26) (Fin 50) (Fin 1013) (Fin 800)
           warm_batch);
    vm_compute; reflexivity.
Defined.

(** C9, as stated, fails.  The text nan is a number for [float]; the
    analysis goes through, the error is nan, the comparison with the
    threshold is false, the verdict is Normal and the bar is set to nan,
    which is not in [0, 1]. *)
Lemma progress_bar_nan_counterexample :
  float_fragment "nan" = Some NaN
  /\ run_result float_fragment nan_checker = Ok tt
  /\ lbl_result_value (run_state float_fragment nan_checker)
     = "STATUS NORMAL"%string
  /\ lbl_loss_value (run_state float_fragment nan_checker) = LossValue NaN
  /\ progress_bar_value (run_state float_fragment nan_checker) = NaN
  /\ in_unit_interval
       (progress_bar_value (run_state float_fragment nan_checker)) = false
  /\ fle NaN DEFAULT_THRESHOLD = false.
Proof. repeat split. Qed.

End ProgressBarExamples.

(* ================================================================== *)
(** * The anomaly scorer: the result of a scoring call *)
(* ================================================================== *)

Section FiniteArrays.

Lemma forallb_concat {A : Type} (p : A -> bool) (l : list (list A)) :
  forallb p (concat l) = forallb (forallb p) l.
Proof.
  induction l as [|x l IH]; simpl; [reflexivity|].
  rewrite forallb_app, IH. reflexivity.
Qed.

Lemma forallb_map2 {A B C : Type} (f : A -> B -> C)
      (p : A -> bool) (q : B -> bool) (r : C -> bool) :
  (forall a b, p a = true -> q b = true -> r (f a b) = true) ->
  forall l l', forallb p l = true -> forallb q l' = true ->
               forallb r (Np.map2 f l l') = true.
Proof.
  intros Hf. induction l as [|x l IH]; intros [|y l'] Hl Hl'; simpl in *;
    trivial.
  apply andb_true_iff in Hl, Hl'. destruct Hl as [Hx Hl], Hl' as [Hy Hl'].
  rewrite (Hf x y Hx Hy). simpl. apply IH; assumption.
Qed.

Lemma all_finite_nested (t : Np.tensor3) :
  Np.all_finite t = forallb (forallb (forallb is_finite)) t.
Proof.
  unfold Np.all_finite, Np.ravel. rewrite !forallb_concat. reflexivity.
Qed.

Lemma fsub_finite (x y : pyfloat) :
  is_finite x = true -> is_finite y = true -> is_finite (fsub x y) = true.
Proof. destruct x, y; simpl; congruence. Qed.

(** The difference of two finite arrays is finite, and so are its
    absolute values. *)
Lemma all_finite_abs_sub (x y : Np.tensor3) :
  Np.all_finite x = true -> Np.all_finite y = true ->
  Np.all_finite (Np.abs (Np.sub x y)) = true.
Proof.
  intros Hx Hy. unfold Np.all_finite in *. rewrite ravel_abs.
  rewrite forallb_forall. intros a Ha. apply in_map_iff in Ha.
  destruct Ha as [b [<- Hb]].
  assert (Hsub : forallb is_finite (Np.ravel (Np.sub x y)) = true).
  { fold (Np.all_finite (Np.sub x y)). rewrite all_finite_nested.
    fold (Np.all_finite x) in Hx. fold (Np.all_finite y) in Hy.
    rewrite all_finite_nested in Hx, Hy. unfold Np.sub.
    revert Hx Hy. apply forallb_map2. intros mx my.
    apply forallb_map2. intros rx ry.
    apply forallb_map2. apply fsub_finite. }
  rewrite forallb_forall in Hsub. specialize (Hsub b Hb).
  destruct b; simpl in *; congruence.
Qed.

(** An array with at least one element in each dimension has a first
    element. *)
Lemma has_shape_first (a b c : nat) (x : Np.tensor3) :
  Np.has_shape (S a) (S b) (S c) x = true ->
  exists e r m t, x = ((e :: r) :: m) :: t.
Proof.
  unfold Np.has_shape. intro H. apply andb_true_iff in H.
  destruct H as [Hlen Hall].
  destruct x as [|mx t]; [discriminate|].
  simpl in Hall. apply andb_true_iff in Hall. destruct Hall as [Hmx _].
  apply andb_true_iff in Hmx. destruct Hmx as [Hb Hrows].
  destruct mx as [|rx m]; [discriminate|].
  simpl in Hrows. apply andb_true_iff in Hrows. destruct Hrows as [Hc _].
  destruct rx as [|e r]; [discriminate|].
  now exists e, r, m, t.
Qed.

End FiniteArrays.

Section ScoringResult.
Import App.

Variable float_of : string -> option pyfloat.

(** A scaled reading of one row of four values gives the batch of
    TIME_STEPS copies of that row. *)
Lemma input_batch_of_row (s : Scaler) (reading : Np.row) (n1 n2 n3 n4 : pyfloat) :
  s [reading] = [[n1; n2; n3; n4]] ->
  input_batch_of s reading = Some [List.repeat [n1; n2; n3; n4] TIME_STEPS].
Proof.
  intro Hs. unfold input_batch_of. rewrite Hs.
  apply reshape_repeat_row; unfold TIME_STEPS; simpl; lia.
Qed.

(** C1, as the code has it.  With the model and the scaler loaded, for a
    reading of four finite numbers, the scaler answering one row of four
    values and the model an array of shape (1, TIME_STEPS, 4), the call
    ends normally with a raw error that is nan or at least zero, at least
    zero whenever the scaler and the model answer finite numbers, and a
    severity percentage equal to raw_error / THRESHOLD * 100, the
    threshold being 0.15. *)
Theorem score_nonnegative_unless_nan
        (self : AnomalyChecker) (m : Model) (s : Scaler)
        (v1 v2 v3 v4 n1 n2 n3 n4 : pyfloat) :
  model self = Some m -> scaler self = Some s ->
  float_of (txt_temp self) = Some v1 -> float_of (txt_hum self) = Some v2 ->
  float_of (txt_press self) = Some v3 -> float_of (txt_soil self) = Some v4 ->
  forallb is_finite [v1; v2; v3; v4] = true ->
  s [[v1; v2; v3; v4]] = [[n1; n2; n3; n4]] ->
  let batch := [List.repeat [n1; n2; n3; n4] TIME_STEPS] in
  Np.has_shape 1 TIME_STEPS 4 (m batch) = true ->
  let err := mae_loss_of m batch in
  let after := run_state float_of self in
  run_result float_of self = Ok tt
  /\ lbl_loss_value after = LossValue err
  /\ (is_nan err = false -> fge err zero = true)
  /\ (forallb is_finite [n1; n2; n3; n4] = true ->
      Np.all_finite (m batch) = true ->
      is_nan err = false /\ fge err zero = true)
  /\ (lbl_score_value after
      = Severity (fmul (fdiv err DEFAULT_THRESHOLD) (Fin 100))
      \/ lbl_score_value after
         = Deviation (fmul (fdiv err DEFAULT_THRESHOLD) (Fin 100)))
  /\ DEFAULT_THRESHOLD = Fin (15 # 100).
Proof.
  intros Hm Hs H1 H2 H3 H4 Hv Hscaled batch Hshape err after.
  pose proof (input_batch_of_row s [v1; v2; v3; v4] _ _ _ _ Hscaled) as Hb.
  fold batch in Hb.
  pose proof (run_scored float_of self _ _ _ _ _ _ _ Hm Hs H1 H2 H3 H4 Hb) as Hrun.
  fold err in Hrun.
  assert (Hpos : is_nan err = false -> fge err zero = true).
  { intro Hnan. unfold fge.
    destruct (mean_abs_nan_or_nonneg (Np.sub (m batch) batch)) as [H|H];
      fold (mae_loss_of m batch) in H; fold err in H; [|exact H].
    congruence. }
  split; [|split; [|split; [|split; [|split]]]].
  - unfold run_result. rewrite Hrun. reflexivity.
  - unfold after, run_state. rewrite Hrun. cbn [fst snd].
    destruct (fgt err DEFAULT_THRESHOLD); reflexivity.
  - exact Hpos.
  - intros Hn Hfin.
    assert (Hbatch : Np.all_finite batch = true).
    { rewrite all_finite_nested. unfold batch. cbn [forallb].
      rewrite andb_true_r. apply forallb_forall. intros r Hr.
      apply repeat_spec in Hr. subst r. exact Hn. }
    assert (Herr : is_finite err = true).
    { apply mean_finite; [apply all_finite_abs_sub; assumption|].
      destruct (has_shape_first _ _ _ _ Hshape) as [e [r [mx [t Hx]]]].
      rewrite Hx. unfold batch, TIME_STEPS. discriminate. }
    assert (Hnan : is_nan err = false).
    { revert Herr. generalize err. intros x Hx.
      destruct x; simpl in *; congruence. }
    split; [exact Hnan|apply Hpos, Hnan].
  - unfold after, run_state. rewrite Hrun. cbn [fst snd].
    destruct (fgt err DEFAULT_THRESHOLD); [left|right]; reflexivity.
  - reflexivity.
Qed.

End ScoringResult.

Section ScoringResultExamples.
Import App Sample.

(** A reading one degree off the default, scored. *)
Lemma score_nonnegative_unless_nan_witness :
  forallb is_finite [Fin 26; Fin 50; Fin 1013; Fin 800] = true
  /\ Np.has_shape 1 TIME_STEPS 4 (demo_model warm_batch) = true
  /\ run_result float_fragment warm_checker = Ok tt
  /\ lbl_loss_value (run_state float_fragment warm_checker)
     = LossValue (mae_loss_of demo_model warm_batch)
  /\ fge (mae_loss_of demo_model warm_batch) zero = true
  /\ lbl_score_value (run_state float_fragment warm_checker)
     = Deviation (fmul (fdiv (mae_loss_of demo_model warm_batch)
                             DEFAULT_THRESHOLD) (Fin 100)).
Proof.
  destruct (@score_nonnegative_unless_nan float_fragment warm_checker
              demo_model demo_scaler (Fin 26) (Fin 50) (Fin 1013) (Fin 800)
              (Fin (1 # 5)) (Fin (0 # 10)) (Fin (0 # 400)) (Fin (0 # 100))
              eq_refl eq_refl eq_refl eq_refl eq_refl eq_refl eq_refl
              eq_refl eq_refl)
    as [Hres [Hloss [_ [Hpos [Hscore _]]]]].
  change [List.repeat [Fin (1 # 5); Fin (0 # 10); Fin (0 # 400); Fin (0 # 100)]
                      TIME_STEPS]
    with warm_batch in *.
  split; [reflexivity|]. split; [vm_compute; reflexivity|].
  split; [exact Hres|]. split; [exact Hloss|].
  split; [apply Hpos; vm_compute; reflexivity|].
  destruct Hscore as [Hscore|Hscore]; [|exact Hscore].
  exfalso. revert Hscore. vm_compute. discriminate.
Defined.

(** C1, as stated, fails.  The default reading of the form is four finite
    numbers; a model whose answer is nan at every position of the
    (1, TIME_STEPS, 4) array gives the raw error nan, which is not at
    least zero: the call ends normally and shows that error with the
    verdict Normal. *)
Lemma score_nan_counterexample :
  map float_fragment (form_texts nan_model_checker)
  = [Some (Fin 25); Some (Fin 50); Some (Fin 1013); Some (Fin 800)]
  /\ forallb is_finite [Fin 25; Fin 50; Fin 1013; Fin 800] = true
  /\ Np.has_shape 1 TIME_STEPS 4 (nan_model default_batch) = true
  /\ run_result float_fragment nan_model_checker = Ok tt
  /\ lbl_loss_value (run_state float_fragment nan_model_checker)
     = LossValue NaN
  /\ fge NaN zero = false
  /\ lbl_result_value (run_state float_fragment nan_model_checker)
     = "STATUS NORMAL"%string.
Proof. repeat split. Qed.

End ScoringResultExamples.

(* ================================================================== *)
(** * The anomaly scorer: the sequence and its reconstruction error *)
(* ================================================================== *)

Section Sequence.
Import App.

(** Scaling row by row commutes with repeating the rows. *)
Lemma rowwise_repeat (f : Np.row -> Np.row) (x : Np.matrix) (n : nat) :
  map f (Np.repeat x n) = Np.repeat (map f x) n.
Proof.
  unfold Np.repeat. induction x as [|r x IH]; simpl; [reflexivity|].
  rewrite map_app, map_repeat, IH. reflexivity.
Qed.

(** C6.  For an affine scaler, which transforms each row on its own,
    normalizing the reading repeated over the TIME_STEPS positions is
    repeating the normalized reading, and so for every number of
    positions and every matrix of readings. *)
Theorem normalize_commutes_with_repeat (a b : Np.row) (x : Np.row) :
  affine_scaler a b (Np.repeat [x] TIME_STEPS)
  = Np.repeat (affine_scaler a b [x]) TIME_STEPS
  /\ forall (readings : Np.matrix) (n : nat),
       affine_scaler a b (Np.repeat readings n)
       = Np.repeat (affine_scaler a b readings) n.
Proof.
  split; [|intros readings n]; apply rowwise_repeat.
Qed.

(** ** Elements by position *)

Lemma map2_by_position {A B C : Type} (f : A -> B -> C) (d : A) (d' : B)
      (l : list A) (l' : list B) :
  length l = length l' ->
  Np.map2 f l l' = map (fun i => f (nth i l d) (nth i l' d')) (seq 0 (length l)).
Proof.
  revert l'. induction l as [|x l IH]; intros [|y l'] H; simpl in *;
    try discriminate; trivial.
  f_equal. rewrite <- seq_shift, map_map. apply IH. congruence.
Qed.

Lemma concat_map_list_prod {A : Type} (g : nat -> nat -> A) (ts fs : list nat) :
  concat (map (fun t => map (g t) fs) ts)
  = map (fun tf => g (fst tf) (snd tf)) (list_prod ts fs).
Proof.
  induction ts as [|t ts IH]; simpl; [reflexivity|].
  rewrite map_app, map_map, IH. reflexivity.
Qed.

(** The absolute differences of two matrices of one shape, in row-major
    order, are the absolute differences at the positions (t, f). *)
Lemma abs_sub_by_position (x y : Np.matrix) (n c : nat) :
  length x = n -> length y = n ->
  Np.rows_of_length c x -> Np.rows_of_length c y ->
  concat (map (map fabs) (Np.map2 (Np.map2 fsub) x y))
  = map (fun tf => fabs (fsub (at_step x (fst tf) (snd tf))
                              (at_step y (fst tf) (snd tf))))
        (list_prod (seq 0 n) (seq 0 c)).
Proof.
  intros Hx Hy Hrx Hry.
  rewrite (@map2_by_position _ _ _ (Np.map2 fsub) [] [] x y) by congruence.
  rewrite Hx, map_map.
  rewrite <- (concat_map_list_prod
                (fun t f => fabs (fsub (at_step x t f) (at_step y t f)))).
  f_equal. apply map_ext_in. intros t Ht. apply in_seq in Ht.
  assert (Hlx : length (nth t x []) = c) by (apply Hrx, nth_In; lia).
  assert (Hly : length (nth t y []) = c) by (apply Hry, nth_In; lia).
  rewrite (@map2_by_position _ _ _ fsub NaN NaN (nth t x []) (nth t y []))
    by congruence.
  rewrite Hlx, map_map. reflexivity.
Qed.

Lemma has_shape_one (n c : nat) (x : Np.matrix) :
  Np.has_shape 1 n c [x] = true -> length x = n /\ Np.rows_of_length c x.
Proof.
  unfold Np.has_shape. cbn [length forallb]. rewrite Nat.eqb_refl.
  cbn [andb]. rewrite andb_true_r, andb_true_iff, Nat.eqb_eq.
  intros [Hn Hrows]. split; [exact Hn|].
  intros r Hr. rewrite forallb_forall in Hrows.
  apply Nat.eqb_eq, Hrows, Hr.
Qed.

(** On a sequence and a reconstruction of shape (TIME_STEPS, 4), the
    error the method computes is the error the specification describes. *)
Lemma mae_loss_is_described_error (m : Model) (sequence recon : Np.matrix) :
  m [sequence] = [recon] ->
  length sequence = TIME_STEPS -> Np.rows_of_length 4 sequence ->
  length recon = TIME_STEPS -> Np.rows_of_length 4 recon ->
  mae_loss_of m [sequence] = described_error sequence recon.
Proof.
  intros Hm Hls Hrs Hlr Hrr.
  unfold mae_loss_of, described_error, Np.mean. rewrite Hm.
  assert (E : Np.ravel (Np.abs (Np.sub [recon] [sequence]))
              = map (fun tf => fabs (fsub (at_step sequence (fst tf) (snd tf))
                                          (at_step recon (fst tf) (snd tf))))
                    (list_prod (seq 0 TIME_STEPS) (seq 0 4))).
  { unfold Np.ravel, Np.abs, Np.sub. cbn [Np.map2 map concat].
    rewrite !app_nil_r.
    rewrite (abs_sub_by_position _ _ _ _ Hlr Hls Hrr Hrs).
    apply map_ext. intro tf. apply fabs_fsub_comm. }
  rewrite E, length_map, length_prod, !length_seq. reflexivity.
Qed.

End Sequence.

Section SequenceClaim.
Import App.

Variable float_of : string -> option pyfloat.

(** C3.  For a reading of four numbers, the method normalizes the one
    reading through the scaler, hands the model the (1, 30, 4) sequence
    that holds the normalized row at each of the TIME_STEPS = 30
    positions, and shows as raw error the mean, over all time steps and
    all four features, of the absolute differences between that sequence
    and its reconstruction. *)
Theorem sequence_and_error_as_described
        (self : AnomalyChecker) (m : Model) (s : Scaler)
        (v1 v2 v3 v4 n1 n2 n3 n4 : pyfloat) (recon : Np.matrix) :
  model self = Some m -> scaler self = Some s ->
  float_of (txt_temp self) = Some v1 -> float_of (txt_hum self) = Some v2 ->
  float_of (txt_press self) = Some v3 -> float_of (txt_soil self) = Some v4 ->
  s [[v1; v2; v3; v4]] = [[n1; n2; n3; n4]] ->
  let sequence := List.repeat [n1; n2; n3; n4] TIME_STEPS in
  m [sequence] = [recon] ->
  Np.has_shape 1 TIME_STEPS 4 [recon] = true ->
  TIME_STEPS = 30
  /\ run_trace float_of self
     = [EvFloat (txt_temp self); EvFloat (txt_hum self);
        EvFloat (txt_press self); EvFloat (txt_soil self);
        EvTransform [[v1; v2; v3; v4]]; EvPredict [sequence]; EvUpdate]
  /\ Np.has_shape 1 TIME_STEPS 4 [sequence] = true
  /\ (forall t, t < TIME_STEPS -> nth t sequence [] = [n1; n2; n3; n4])
  /\ lbl_loss_value (run_state float_of self)
     = LossValue (described_error sequence recon).
Proof.
  intros Hm Hs H1 H2 H3 H4 Hscaled sequence Hrecon Hshape.
  pose proof (input_batch_of_row s [v1; v2; v3; v4] _ _ _ _ Hscaled) as Hb.
  fold sequence in Hb.
  pose proof (run_scored float_of self _ _ _ _ _ _ _ Hm Hs H1 H2 H3 H4 Hb) as Hrun.
  destruct (has_shape_one _ _ _ Hshape) as [Hlr Hrr].
  assert (Hls : length sequence = TIME_STEPS) by apply repeat_length.
  assert (Hrs : Np.rows_of_length 4 sequence).
  { intros r Hr. apply repeat_spec in Hr. now subst r. }
  split; [reflexivity|]. split; [|split; [|split]].
  - unfold run_trace. rewrite Hrun. reflexivity.
  - reflexivity.
  - intros t Ht. apply nth_repeat_lt, Ht.
  - unfold run_state. rewrite Hrun. cbn [fst snd].
    rewrite <- (mae_loss_is_described_error m _ _ Hrecon Hls Hrs Hlr Hrr).
    destruct (fgt (mae_loss_of m [sequence]) DEFAULT_THRESHOLD); reflexivity.
Qed.

End SequenceClaim.

Section SequenceExamples.
Import App Sample.

(** A reading one degree off the default: the sequence handed to the
    model and the error shown. *)
Lemma sequence_and_error_as_described_witness :
  run_trace float_fragment warm_checker
  = [EvFloat "26.0"; EvFloat "50.0"; EvFloat "1013.0"; EvFloat "800.0";
     EvTransform [[Fin 26; Fin 50; Fin 1013; Fin 800]];
     EvPredict [List.repeat
                  [Fin (1 # 5); Fin (0 # 10); Fin (0 # 400); Fin (0 # 100)]
                  TIME_STEPS];
     EvUpdate]
  /\ lbl_loss_value (run_state float_fragment warm_checker)
     = LossValue
         (described_error
            (List.repeat
               [Fin (1 # 5); Fin (0 # 10); Fin (0 # 400); Fin (0 # 100)]
               TIME_STEPS)
            warm_reconstruction).
Proof.
  destruct (@sequence_and_error_as_described float_fragment warm_checker
              demo_model demo_scaler (Fin 26) (Fin 50) (Fin 1013) (Fin 800)
              (Fin (1 # 5)) (Fin (0 # 10)) (Fin (0 # 400)) (Fin (0 # 100))
              warm_reconstruction
              eq_refl eq_refl eq_refl eq_refl eq_refl eq_refl eq_refl
              eq_refl eq_refl)
    as [_ [Hcalls [_ [_ Hloss]]]].
  split; [exact Hcalls|exact Hloss].
Defined.

End SequenceExamples.

(* ================================================================== *)
(** * The serial log collector *)
(* ================================================================== *)

Section CollectorFacts.
Import Collector.

(** Replacing the space by nothing keeps the other characters. *)
Lemma replace_space (s : str) :
  replace s (lit " ") (lit "") = filter not_space s.
Proof.
  unfold replace. change (lit " ") with [32%N]. change (lit "") with (@nil N).
  induction s as [|c s IH]; [reflexivity|].
  cbn [replace_aux startswith filter length Nat.sub app].
  unfold not_space in *. rewrite andb_true_r.
  destruct (N.eqb 32 c); cbn [negb]; rewrite IH; reflexivity.
Qed.

Lemma filter_all {A : Type} (p : A -> bool) (l : list A) :
  forallb p l = true -> filter p l = l.
Proof.
  induction l as [|x l IH]; simpl; [reflexivity|].
  intro H. apply andb_true_iff in H. destruct H as [Hx Hl].
  rewrite Hx, (IH Hl). reflexivity.
Qed.

Lemma digit_range (n : nat) : (48 <= digit n <= 57)%N.
Proof.
  unfold digit. pose proof (Nat.mod_upper_bound n 10). lia.
Qed.

Lemma digit_not (c : N) (n : nat) :
  (c < 48 \/ 57 < c)%N -> N.eqb c (digit n) = false.
Proof.
  intro H. apply N.eqb_neq. pose proof (digit_range n). lia.
Qed.

Lemma pad2_not (c : N) (n : nat) :
  (c < 48 \/ 57 < c)%N -> forallb (fun x => negb (N.eqb c x)) (pad2 n) = true.
Proof.
  intro H. unfold pad2. cbn [forallb]. rewrite !digit_not by exact H.
  reflexivity.
Qed.

Lemma pad4_not (c : N) (n : nat) :
  (c < 48 \/ 57 < c)%N -> forallb (fun x => negb (N.eqb c x)) (pad4 n) = true.
Proof.
  intro H. unfold pad4. cbn [forallb]. rewrite !digit_not by exact H.
  reflexivity.
Qed.

(** A character that is neither a digit, a dash nor a colon does not
    occur in the compact timestamp. *)
Lemma compact_timestamp_not (c : N) (now : datetime) :
  (c < 45 \/ 58 < c)%N ->
  forallb (fun x => negb (N.eqb c x)) (compact_timestamp now) = true.
Proof.
  intro H. unfold compact_timestamp.
  assert (Hd : (c < 48 \/ 57 < c)%N) by lia.
  assert (Hdash : forallb (fun x => negb (N.eqb c x)) (lit "-") = true).
  { change (lit "-") with [45%N]. cbn [forallb].
    replace (N.eqb c 45) with false; [reflexivity|].
    symmetry. apply N.eqb_neq. lia. }
  assert (Hcolon : forallb (fun x => negb (N.eqb c x)) (lit ":") = true).
  { change (lit ":") with [58%N]. cbn [forallb].
    replace (N.eqb c 58) with false; [reflexivity|].
    symmetry. apply N.eqb_neq. lia. }
  rewrite !forallb_app, !pad2_not, pad4_not, Hdash, Hcolon by exact Hd.
  reflexivity.
Qed.

(** Without its spaces, the generated timestamp is the compact one. *)
Lemma strftime_without_space (now : datetime) :
  filter not_space (strftime now) = compact_timestamp now.
Proof.
  unfold strftime, compact_timestamp, not_space.
  assert (Hd : (32 < 48 \/ 57 < 32)%N) by lia.
  rewrite !filter_app.
  rewrite !(filter_all _ _ (pad2_not 32 _ Hd)).
  rewrite (filter_all _ _ (pad4_not 32 _ Hd)).
  reflexivity.
Qed.

(** A prefix without the first character of [old] is passed over by the
    replacement. *)
Lemma replace_aux_prefix (o : N) (old new : str) (p s : str) :
  forallb (fun x => negb (N.eqb o x)) p = true ->
  replace_aux (o :: old) new 0 (p ++ s)
  = p ++ replace_aux (o :: old) new 0 s.
Proof.
  induction p as [|c p IH]; [reflexivity|].
  cbn [forallb]. intro H. apply andb_true_iff in H. destruct H as [Hc Hp].
  cbn [app replace_aux startswith].
  apply negb_true_iff in Hc. rewrite Hc. cbn [andb].
  rewrite (IH Hp). reflexivity.
Qed.

(** The text written for a decoded line: the compact timestamp, a comma
    and the squeezed line. *)
Lemma cleaned_line (now : datetime) (text : str) :
  replace (replace (strftime now ++ lit "," ++ strip text) (lit " ") (lit ""))
          (lit "[Logs]") (lit "")
  = compact_timestamp now ++ lit "," ++ squeezed text.
Proof.
  unfold squeezed. rewrite !replace_space, !filter_app.
  rewrite strftime_without_space.
  change (filter not_space (lit ",")) with (lit ",").
  unfold replace. change (lit "[Logs]") with (91%N :: lit "Logs]").
  rewrite replace_aux_prefix.
  - change (lit ",") with [44%N]. cbn [app].
    change (44%N :: filter not_space (strip text))
      with ([44%N] ++ filter not_space (strip text)).
    rewrite replace_aux_prefix; reflexivity.
  - apply compact_timestamp_not. lia.
Qed.

End CollectorFacts.

Section OneLine.
Import Collector.

Lemma in_removelast {A : Type} (x : A) (l : list A) :
  In x (removelast l) -> In x l.
Proof.
  induction l as [|y l IH]; simpl; [trivial|].
  destruct l as [|z l]; [intros []|].
  intros [H|H]; [left; exact H|right; apply IH, H].
Qed.

Lemma in_removelast_cons {A : Type} (x y : A) (l : list A) :
  In x (removelast l) -> In x (removelast (y :: l)).
Proof.
  destruct l as [|z l]; [intros []|]. intro H. right. exact H.
Qed.

Lemma removelast_cons_in {A : Type} (x y : A) (l : list A) :
  In x (removelast (y :: l)) -> l <> [] /\ (x = y \/ In x (removelast l)).
Proof.
  destruct l as [|z l]; [intros []|].
  intros [H|H]; split; try discriminate;
    [left; symmetry; exact H|right; exact H].
Qed.

(** A decoded newline comes from a newline byte, and if it is not the
    last character then neither was the byte the last one.  The argument
    follows the decoder over a list of bounded length. *)
Lemma decode_utf8_inner_newline (n : nat) :
  forall (data : list N) (text : str),
    length data <= n ->
    decode_utf8 data = Some text ->
    In 10%N (removelast text) -> In 10%N (removelast data).
Proof.
  induction n as [|n IH]; intros data text Hlen Hdec Hin.
  - destruct data; [|simpl in Hlen; lia].
    injection Hdec as <-. destruct Hin.
  - destruct data as [|b0 r0]; [injection Hdec as <-; destruct Hin|].
    cbn [decode_utf8] in Hdec. simpl in Hlen.
    destruct (b0 <? 128)%N eqn:Hb0.
    { destruct (decode_utf8 r0) as [t0|] eqn:Hr0; [|discriminate].
      injection Hdec as <-.
      apply removelast_cons_in in Hin. destruct Hin as [Hne [Hin|Hin]].
      - subst b0. destruct r0 as [|b1 r1].
        + injection Hr0 as <-. congruence.
        + left. reflexivity.
      - apply in_removelast_cons.
        apply (IH r0 t0); [lia|exact Hr0|exact Hin]. }
    destruct (in_range 194 223 b0) eqn:H2.
    { destruct r0 as [|b1 r1]; [discriminate|].
      destruct (is_cont b1); [|discriminate].
      destruct (decode_utf8 r1) as [t1|] eqn:Hr1; [|discriminate].
      injection Hdec as <-.
      apply removelast_cons_in in Hin. destruct Hin as [_ [Hin|Hin]].
      - exfalso. unfold in_range in H2. apply andb_true_iff in H2.
        destruct H2 as [Hlo _]. apply N.leb_le in Hlo. lia.
      - do 2 apply in_removelast_cons. simpl in Hlen.
        apply (IH r1 t1); [lia|exact Hr1|exact Hin]. }
    destruct (in_range 224 239 b0) eqn:H3.
    { destruct r0 as [|b1 [|b2 r2]]; try discriminate.
      destruct (_ && is_cont b2) eqn:Hc; [|discriminate].
      destruct (decode_utf8 r2) as [t2|] eqn:Hr2; [|discriminate].
      injection Hdec as <-.
      apply removelast_cons_in in Hin. destruct Hin as [_ [Hin|Hin]].
      - exfalso. unfold in_range in H3, Hc.
        apply andb_true_iff in H3. destruct H3 as [Hlo Hhi].
        apply andb_true_iff in Hc. destruct Hc as [Hc _].
        apply andb_true_iff in Hc. destruct Hc as [Hc _].
        apply N.leb_le in Hlo, Hhi, Hc.
        destruct (b0 =? 224)%N eqn:E;
          [apply N.eqb_eq in E|apply N.eqb_neq in E]; lia.
      - do 3 apply in_removelast_cons. simpl in Hlen.
        apply (IH r2 t2); [lia|exact Hr2|exact Hin]. }
    destruct (in_range 240 244 b0) eqn:H4; [|discriminate].
    destruct r0 as [|b1 [|b2 [|b3 r3]]]; try discriminate.
    destruct (_ && is_cont b2 && is_cont b3) eqn:Hc; [|discriminate].
    destruct (decode_utf8 r3) as [t3|] eqn:Hr3; [|discriminate].
    injection Hdec as <-.
    apply removelast_cons_in in Hin. destruct Hin as [_ [Hin|Hin]].
    + exfalso. unfold in_range in H4, Hc.
      apply andb_true_iff in H4. destruct H4 as [Hlo Hhi].
      apply andb_true_iff in Hc. destruct Hc as [Hc _].
      apply andb_true_iff in Hc. destruct Hc as [Hc _].
      apply andb_true_iff in Hc. destruct Hc as [Hc _].
      apply N.leb_le in Hlo, Hhi, Hc.
      destruct (b0 =? 240)%N eqn:E;
        [apply N.eqb_eq in E|apply N.eqb_neq in E]; lia.
    + do 4 apply in_removelast_cons. simpl in Hlen.
      apply (IH r3 t3); [lia|exact Hr3|exact Hin].
Qed.

End OneLine.

Section Stripping.
Import Collector.

Lemma in_lstrip (c : N) (s : str) : In c (lstrip s) -> In c s.
Proof.
  induction s as [|x s IH]; simpl; [trivial|].
  destruct (isspace x); [intro H; right; apply IH, H|trivial].
Qed.

Lemma in_removelast_lstrip (c : N) (s : str) :
  In c (removelast (lstrip s)) -> In c (removelast s).
Proof.
  induction s as [|x s IH]; [trivial|].
  cbn [lstrip]. destruct (isspace x); [|trivial].
  intro H. apply in_removelast_cons, IH, H.
Qed.

Lemma rstrip_last (l : str) (x : N) :
  rstrip (l ++ [x]) = if isspace x then rstrip l else l ++ [x].
Proof.
  unfold rstrip. rewrite rev_app_distr. cbn [rev app lstrip].
  destruct (isspace x); [reflexivity|].
  cbn [rev]. rewrite rev_involutive. reflexivity.
Qed.

Lemma in_rstrip (c : N) (s : str) : In c (rstrip s) -> In c s.
Proof.
  unfold rstrip. intro H. apply in_rev in H. apply in_lstrip in H.
  apply in_rev, H.
Qed.

(** A whitespace character that survives [rstrip] is not the last one. *)
Lemma in_rstrip_space (c : N) (s : str) :
  isspace c = true -> In c (rstrip s) -> In c (removelast s).
Proof.
  intros Hc H. destruct s as [|y s']; [destruct H|].
  destruct (@exists_last _ (y :: s')) as [l [x E]]; [discriminate|].
  rewrite E in *. rewrite removelast_last. rewrite rstrip_last in H.
  destruct (isspace x) eqn:Hx.
  - apply in_rstrip, H.
  - apply in_app_or in H. destruct H as [H|[H|[]]]; [exact H|].
    subst x. congruence.
Qed.

(** A newline that survives [strip] is not the last character. *)
Lemma in_strip_newline (s : str) :
  In 10%N (strip s) -> In 10%N (removelast s).
Proof.
  unfold strip. intro H.
  apply in_removelast_lstrip, in_rstrip_space; [reflexivity|exact H].
Qed.

Lemma in_replace_aux_empty (c : N) (old : str) (s : str) :
  forall skip, In c (replace_aux old [] skip s) -> In c s.
Proof.
  induction s as [|x s IH]; intros skip H; [exact H|].
  cbn [replace_aux] in H. destruct skip as [|k].
  - destruct (startswith N.eqb (x :: s) old).
    + right. apply (IH _ H).
    + destruct H as [H|H]; [left; exact H|right; apply (IH _ H)].
  - right. apply (IH _ H).
Qed.

(** The squeezed line has no newline unless the line has one before its
    last character. *)
Lemma in_squeezed_newline (text : str) :
  In 10%N (squeezed text) -> In 10%N (removelast text).
Proof.
  unfold squeezed, replace. change (lit "") with (@nil N). intro H.
  apply in_replace_aux_empty in H. apply in_replace_aux_empty in H.
  apply in_strip_newline, H.
Qed.

Lemma removelast_map {A B : Type} (f : A -> B) (l : list A) :
  removelast (map f l) = map f (removelast l).
Proof.
  induction l as [|x l IH]; [reflexivity|].
  destruct l as [|y l]; [reflexivity|].
  cbn [map removelast] in *. rewrite IH. reflexivity.
Qed.

(** The record of a line read by [readline] has no newline before the
    one that ends it. *)
Lemma record_without_newline (now : datetime) (data : bytes) (text : str) :
  decode data = Some text -> no_inner_newline data ->
  ~ In 10%N (compact_timestamp now ++ lit "," ++ squeezed text).
Proof.
  intros Hdec Hline Hin. apply in_app_or in Hin. destruct Hin as [Hin|Hin].
  - pose proof (compact_timestamp_not 10 now) as Hts.
    rewrite forallb_forall in Hts. specialize (Hts (or_introl eq_refl) _ Hin).
    rewrite N.eqb_refl in Hts. discriminate.
  - apply in_app_or in Hin. destruct Hin as [Hin|Hin].
    + destruct Hin as [Hin|[]]. discriminate.
    + apply in_squeezed_newline in Hin.
      apply (decode_utf8_inner_newline (length (map Byte.to_N data))
                                       (map Byte.to_N data) text
                                       (Nat.le_refl _) Hdec) in Hin.
      rewrite removelast_map in Hin. apply in_map_iff in Hin.
      destruct Hin as [b [Hb Hin]]. apply Hline.
      replace x0a with b; [exact Hin|].
      pose proof (Byte.of_to_N b) as Hof. rewrite Hb in Hof.
      vm_compute in Hof. congruence.
Qed.

End Stripping.

Section CollectorClaim.
Import Collector.

(** C8, as the code has it.  A line is appended to the log exactly when
    it begins with the marker b"[Logs] " and decodes as UTF-8 (a marked
    line that does not decode raises UnicodeDecodeError, and nothing is
    appended).  The record is the generated timestamp without its space, a
    comma, and the decoded line stripped, freed of every space and then of
    every occurrence of the word [Logs], followed by a newline; for a line
    as [readline] returns it, that newline is the only one. *)
Theorem collector_appends_squeezed_record
        (now : datetime) (data : bytes) (w : World) :
  step now data w
  = (if startswith byte_eqb data MARKER then
       match decode data with
       | Some text =>
           inr (mkWorld
                  (logs_csv w ++ written_record now text)
                  (stdout w
                   ++ [split 44 (compact_timestamp now ++ lit ","
                                 ++ squeezed text)]))
       | None => inl UnicodeDecodeError
       end
     else inr w)
  /\ ((exists w' record,
         step now data w = inr w' /\ record <> []
         /\ logs_csv w' = logs_csv w ++ record)
      <-> (startswith byte_eqb data MARKER = true /\ decode data <> None))
  /\ (forall text,
        decode data = Some text -> no_inner_newline data ->
        ~ In 10%N (compact_timestamp now ++ lit "," ++ squeezed text)).
Proof.
  assert (Hstep :
    step now data w
    = (if startswith byte_eqb data MARKER then
         match decode data with
         | Some text =>
             inr (mkWorld
                    (logs_csv w ++ written_record now text)
                    (stdout w
                     ++ [split 44 (compact_timestamp now ++ lit ","
                                   ++ squeezed text)]))
         | None => inl UnicodeDecodeError
         end
       else inr w)).
  { unfold step, written_record.
    destruct (startswith byte_eqb data MARKER); [|reflexivity].
    destruct (decode data) as [text|]; [|reflexivity].
    rewrite cleaned_line. reflexivity. }
  split; [exact Hstep|]. split.
  - rewrite Hstep. split.
    + intros [w' [record [Hw [Hne Hlog]]]].
      destruct (startswith byte_eqb data MARKER).
      * split; [reflexivity|].
        destruct (decode data); [discriminate|discriminate].
      * exfalso. injection Hw as <-. apply Hne.
        apply (app_inv_head (logs_csv w)). rewrite app_nil_r.
        symmetry. exact Hlog.
    + intros [Hmark Hdec]. rewrite Hmark.
      destruct (decode data) as [text|]; [|congruence].
      eexists. exists (written_record now text).
      split; [reflexivity|]. split; [|reflexivity].
      unfold written_record. intro H. apply app_eq_nil in H.
      destruct H as [_ H]. discriminate.
  - intros text. apply record_without_newline.
Qed.

(** A line of four values: its record, on one line. *)
Lemma collector_appends_squeezed_record_witness :
  no_inner_newline demo_line
  /\ logs_csv_after demo_now demo_line
     = Some (lit "2024-03-0514:07:09,25.5,60.1,1013.2,812" ++ [10%N])
  /\ ~ In 10%N (lit "2024-03-0514:07:09,25.5,60.1,1013.2,812").
Proof.
  assert (Hline : no_inner_newline demo_line).
  { unfold no_inner_newline. vm_compute. intuition discriminate. }
  destruct (collector_appends_squeezed_record demo_now demo_line empty_world)
    as [Hstep [_ Hone]].
  split; [exact Hline|]. split.
  - unfold logs_csv_after. rewrite Hstep. vm_compute. reflexivity.
  - apply (Hone (lit "[Logs] 25.5,60.1,1013.2,812" ++ [13%N; 10%N]));
      [vm_compute; reflexivity|exact Hline].
Defined.

(** C8, as stated, fails.  For a marked line read at 2024-03-05 14:07:09
    the generated timestamp has a space between the date and the time; the
    record written does not begin with it, and is not the record the
    specification describes. *)
Lemma collector_record_counterexample :
  strftime demo_now = lit "2024-03-05 14:07:09"
  /\ logs_csv_after demo_now demo_line
     = Some (lit "2024-03-0514:07:09,25.5,60.1,1013.2,812" ++ [10%N])
  /\ described_record demo_now demo_line
     = Some (lit "2024-03-05 14:07:09,25.5,60.1,1013.2,812" ++ [10%N])
  /\ logs_csv_after demo_now demo_line <> described_record demo_now demo_line
  /\ startswith N.eqb
       (lit "2024-03-0514:07:09,25.5,60.1,1013.2,812" ++ [10%N])
       (strftime demo_now) = false.
Proof.
  split; [reflexivity|]. split; [vm_compute; reflexivity|].
  split; [vm_compute; reflexivity|].
  split; [vm_compute; discriminate|vm_compute; reflexivity].
Qed.

(** A marked line that is not UTF-8 ends the collector, and a line
    without the marker is passed over. *)
Example collector_other_lines :
  step demo_now (MARKER ++ [xff; x0a]) empty_world = inl UnicodeDecodeError
  /\ step demo_now (list_byte_of_string "boot ok" ++ [x0a]) empty_world
     = inr empty_world
  /\ step demo_now (list_byte_of_string "[Logs]1,2" ++ [x0a]) empty_world
     = inr empty_world.
Proof. repeat split. Qed.

End CollectorClaim.

(* ================================================================== *)
(** * Further runs *)
(* ================================================================== *)

Section Scenarios.
Import App Sample Collector.

(** The two end-to-end scenarios of the specification on the sample
    collaborators: the default reading is Normal, a temperature of 500 is
    an Anomaly with a severity above 100 percent and the bar at its cap. *)
Example end_to_end_scenarios :
  lbl_result_value (run_state float_fragment demo_checker)
  = "STATUS NORMAL"%string
  /\ lbl_result_value (run_state float_fragment hot_checker)
     = "ANOMALY DETECTED"%string
  /\ match lbl_score_value (run_state float_fragment hot_checker) with
     | Severity p => fgt p (Fin 100)
     | _ => false
     end = true
  /\ progress_bar_value (run_state float_fragment hot_checker) = Fin 1.
Proof. repeat split; vm_compute; reflexivity. Qed.

(** The log only grows: after any number of turns the text that was in
    the file is still its beginning. *)
Lemma run_append_only (input : list (datetime * bytes)) :
  forall w w', run input w = inr w' ->
               exists added, logs_csv w' = logs_csv w ++ added.
Proof.
  induction input as [|[now data] rest IH]; intros w w' Hrun.
  - injection Hrun as <-. exists []. symmetry. apply app_nil_r.
  - cbn [run] in Hrun.
    destruct (step now data w) as [e|w1] eqn:Hstep; [discriminate|].
    destruct (IH w1 w' Hrun) as [added Hadded].
    unfold step in Hstep.
    destruct (startswith byte_eqb data MARKER).
    + destruct (decode data) as [text|]; [|discriminate].
      injection Hstep as <-. cbn [logs_csv] in Hadded.
      eexists. rewrite Hadded, <- app_assoc. reflexivity.
    + injection Hstep as <-. exists added. exact Hadded.
Qed.

End Scenarios.

(* ================================================================== *)
(** * Start-up of the control *)
(* ================================================================== *)

Section StartUp.
Import App.

(** X1.  After start-up the model and the scaler are both set exactly
    when both files exist and both loaders return; exactly then the status
    line is the green Ready; a scaler is never set without a model; and the
    result card starts hidden. *)
Theorem start_up_outcome (fs : Assets) :
  (assets_available fs = true
   <-> (model (init fs) <> None /\ scaler (init fs) <> None))
  /\ (assets_available fs = true <-> status (init fs) = "Ready"%string)
  /\ (assets_available fs = true <-> status_color (init fs) = GREEN)
  /\ (scaler (init fs) <> None -> model (init fs) <> None)
  /\ result_card_visible (init fs) = false.
Proof.
  unfold assets_available, init, load_assets.
  destruct (model_exists fs), (scaler_exists fs);
    destruct (load_model fs) as [m|e], (joblib_load fs) as [s|e'];
    cbn; repeat split; intros; try discriminate; try congruence;
    try (destruct H; congruence).
Qed.

End StartUp.

(* ================================================================== *)
(** * The calls and the display of every run *)
(* ================================================================== *)

Section Reshape.

Lemma chunks_aux_shape {A : Type} (c : nat) :
  0 < c ->
  forall (k fuel : nat) (l : list A),
    length l = k * c -> k <= fuel ->
    length (Np.chunks_aux fuel c l) = k
    /\ Forall (fun r => length r = c) (Np.chunks_aux fuel c l).
Proof.
  intros Hc. induction k as [|k IH]; intros fuel l Hl Hfuel.
  - destruct l; [|discriminate]. destruct fuel; split; constructor.
  - destruct fuel as [|fuel]; [lia|].
    destruct l as [|x l]; [simpl in Hl; lia|].
    cbn [Np.chunks_aux].
    assert (Hfirst : length (firstn c (x :: l)) = c).
    { rewrite length_firstn. lia. }
    assert (Hskip : length (skipn c (x :: l)) = k * c).
    { rewrite length_skipn. lia. }
    destruct (IH fuel (skipn c (x :: l)) Hskip ltac:(lia)) as [Hlen Hall].
    split; [simpl; congruence|constructor; assumption].
Qed.

(** A reshape that succeeds gives an array of the shape asked for. *)
Lemma reshape_shape (m : Np.matrix) (n c : nat) (t : Np.tensor3) :
  0 < n -> 0 < c ->
  Np.reshape m 1 n c = Some t -> Np.has_shape 1 n c t = true.
Proof.
  intros Hn Hc. unfold Np.reshape.
  destruct (Nat.eqb (length (concat m)) (1 * n * c)) eqn:Hlen; [|discriminate].
  intro H. injection H as <-. apply Nat.eqb_eq in Hlen.
  destruct (chunks_aux_shape c Hc n (length (concat m)) (concat m))
    as [Hrows Hall]; [lia|nia|].
  fold (Np.chunks c (concat m)) in Hrows, Hall.
  assert (Hne : Np.chunks c (concat m) <> []).
  { intro E. rewrite E in Hrows. simpl in Hrows. lia. }
  pose proof (chunks_whole (Np.chunks c (concat m)) Hne) as Hwhole.
  rewrite Hrows in Hwhole. rewrite Hwhole.
  unfold Np.has_shape. cbn [length forallb]. rewrite Hrows, !Nat.eqb_refl.
  cbn [andb]. rewrite andb_true_r. apply forallb_forall. intros r Hr.
  rewrite Forall_forall in Hall. apply Nat.eqb_eq, Hall, Hr.
Qed.

Lemma length_concat_repeat (m : Np.matrix) (n : nat) :
  length (concat (Np.repeat m n)) = n * length (concat m).
Proof.
  unfold Np.repeat. induction m as [|r m IH]; simpl; [lia|].
  rewrite concat_app, !length_app, IH.
  assert (E : length (concat (List.repeat r n)) = n * length r).
  { clear. induction n as [|n IHn]; simpl; [reflexivity|].
    rewrite length_app, IHn. lia. }
  rewrite E. lia.
Qed.

(** The batch exists exactly when the scaler answers with four values,
    in whatever arrangement. *)
Lemma input_batch_of_defined (s : App.Scaler) (reading : Np.row) :
  App.input_batch_of s reading <> None <-> length (concat (s [reading])) = 4.
Proof.
  unfold App.input_batch_of, Np.reshape, App.TIME_STEPS.
  rewrite length_concat_repeat.
  destruct (Nat.eqb (30 * length (concat (s [reading]))) (1 * 30 * 4)) eqn:E.
  - apply Nat.eqb_eq in E. split; [lia|discriminate].
  - apply Nat.eqb_neq in E. split; [congruence|lia].
Qed.

End Reshape.

Section EveryRun.
Import App.

Variable float_of : string -> option pyfloat.

(** The four ways a run can go, each with its result, control and
    calls. *)
Lemma run_forms (self : AnomalyChecker) :
  ((model self = None \/ scaler self = None)
   /\ analyze_inputs float_of self
      = (Ok tt, shown_message "Model not loaded!" self, [EvUpdate]))
  \/ (exists k,
        model self <> None /\ scaler self <> None /\ k < 4
        /\ float_of (nth k (form_texts self) ""%string) = None
        /\ (forall j, j < k ->
                      float_of (nth j (form_texts self) ""%string) <> None)
        /\ analyze_inputs float_of self
           = (Ok tt,
              shown_message "Invalid Input: Please enter numbers only." self,
              map EvFloat (firstn (S k) (form_texts self)) ++ [EvUpdate]))
  \/ (exists m s v1 v2 v3 v4,
        model self = Some m /\ scaler self = Some s
        /\ map float_of (form_texts self)
           = [Some v1; Some v2; Some v3; Some v4]
        /\ input_batch_of s [v1; v2; v3; v4] = None
        /\ analyze_inputs float_of self
           = (Ok tt,
              shown_message "Invalid Input: Please enter numbers only." self,
              map EvFloat (form_texts self)
              ++ [EvTransform [[v1; v2; v3; v4]]; EvUpdate]))
  \/ (exists m s v1 v2 v3 v4 batch,
        model self = Some m /\ scaler self = Some s
        /\ map float_of (form_texts self)
           = [Some v1; Some v2; Some v3; Some v4]
        /\ input_batch_of s [v1; v2; v3; v4] = Some batch
        /\ analyze_inputs float_of self
           = (Ok tt,
              (if fgt (mae_loss_of m batch) DEFAULT_THRESHOLD
               then shown_anomaly (mae_loss_of m batch) self
               else shown_normal (mae_loss_of m batch) self),
              map EvFloat (form_texts self)
              ++ [EvTransform [[v1; v2; v3; v4]]; EvPredict batch; EvUpdate])).
Proof.
  assert (Hmodel : model self = None \/ exists m, model self = Some m)
    by (destruct (model self) as [m|]; [right; exists m|left]; reflexivity).
  assert (Hscaler : scaler self = None \/ exists s, scaler self = Some s)
    by (destruct (scaler self) as [s|]; [right; exists s|left]; reflexivity).
  destruct Hmodel as [Hm|[m Hm]];
    [left; split; [left; exact Hm|apply run_not_loaded; left; exact Hm]|].
  destruct Hscaler as [Hs|[s Hs]];
    [left; split; [right; exact Hs|apply run_not_loaded; right; exact Hs]|].
  right.
  assert (Hrej : forall k, k < 4 ->
            float_of (nth k (form_texts self) ""%string) = None ->
            (forall j, j < k ->
               float_of (nth j (form_texts self) ""%string) <> None) ->
            analyze_inputs float_of self
            = (Ok tt,
               shown_message "Invalid Input: Please enter numbers only." self,
               map EvFloat (firstn (S k) (form_texts self)) ++ [EvUpdate])).
  { intros k Hk Hnone Hbefore. unfold form_texts in *. run_analyze.
    rewrite Hm, Hs.
    destruct k as [|[|[|[|k]]]]; try lia; cbn [nth] in Hnone.
    - rewrite Hnone. reflexivity.
    - pose proof (Hbefore 0 ltac:(lia)) as H0. cbn [nth] in H0.
      destruct (float_of (txt_temp self)); [|congruence].
      rewrite Hnone. reflexivity.
    - pose proof (Hbefore 0 ltac:(lia)) as H0.
      pose proof (Hbefore 1 ltac:(lia)) as H1. cbn [nth] in H0, H1.
      destruct (float_of (txt_temp self)); [|congruence].
      destruct (float_of (txt_hum self)); [|congruence].
      rewrite Hnone. reflexivity.
    - pose proof (Hbefore 0 ltac:(lia)) as H0.
      pose proof (Hbefore 1 ltac:(lia)) as H1.
      pose proof (Hbefore 2 ltac:(lia)) as H2. cbn [nth] in H0, H1, H2.
      destruct (float_of (txt_temp self)); [|congruence].
      destruct (float_of (txt_hum self)); [|congruence].
      destruct (float_of (txt_press self)); [|congruence].
      rewrite Hnone. reflexivity. }
  assert (Hloaded : model self <> None /\ scaler self <> None)
    by (rewrite Hm, Hs; split; discriminate).
  destruct Hloaded as [Hm' Hs'].
  assert (Hat : forall k, k < 4 ->
            float_of (nth k (form_texts self) ""%string) = None ->
            (forall j, j < k ->
               float_of (nth j (form_texts self) ""%string) <> None) ->
            exists k,
              model self <> None /\ scaler self <> None /\ k < 4
              /\ float_of (nth k (form_texts self) ""%string) = None
              /\ (forall j, j < k ->
                     float_of (nth j (form_texts self) ""%string) <> None)
              /\ analyze_inputs float_of self
                 = (Ok tt,
                    shown_message
                      "Invalid Input: Please enter numbers only." self,
                    map EvFloat (firstn (S k) (form_texts self))
                    ++ [EvUpdate])).
  { intros k Hk Hnone Hbefore. exists k.
    split; [exact Hm'|]. split; [exact Hs'|]. split; [exact Hk|].
    split; [exact Hnone|]. split; [exact Hbefore|].
    apply Hrej; assumption. }
  destruct (float_of (txt_temp self)) as [v1|] eqn:H1.
  2:{ left. apply (Hat 0); [lia|exact H1|]. intros j Hj. lia. }
  destruct (float_of (txt_hum self)) as [v2|] eqn:H2.
  2:{ left. apply (Hat 1); [lia|exact H2|].
      intros j Hj. destruct j as [|j]; [|lia].
      unfold form_texts. cbn [nth]. congruence. }
  destruct (float_of (txt_press self)) as [v3|] eqn:H3.
  2:{ left. apply (Hat 2); [lia|exact H3|].
      intros j Hj. destruct j as [|[|j]]; try lia;
        unfold form_texts; cbn [nth]; congruence. }
  destruct (float_of (txt_soil self)) as [v4|] eqn:H4.
  2:{ left. apply (Hat 3); [lia|exact H4|].
      intros j Hj. destruct j as [|[|[|j]]]; try lia;
        unfold form_texts; cbn [nth]; congruence. }
  right.
  assert (Hparsed : map float_of (form_texts self)
                    = [Some v1; Some v2; Some v3; Some v4]).
  { unfold form_texts. cbn [map]. rewrite H1, H2, H3, H4. reflexivity. }
  destruct (input_batch_of s [v1; v2; v3; v4]) as [batch|] eqn:Hb.
  - right. exists m, s, v1, v2, v3, v4, batch.
    split; [exact Hm|]. split; [exact Hs|]. split; [exact Hparsed|].
    split; [exact Hb|].
    apply (run_scored float_of self m s v1 v2 v3 v4 batch); assumption.
  - left. exists m, s, v1, v2, v3, v4.
    split; [exact Hm|]. split; [exact Hs|]. split; [exact Hparsed|].
    split; [exact Hb|].
    unfold input_batch_of in Hb. unfold form_texts. run_analyze.
    rewrite Hm, Hs, H1, H2, H3, H4. cbn [app]. rewrite Hb. reflexivity.
Qed.

End EveryRun.

Section EveryRunProperties.
Import App.

Variable float_of : string -> option pyfloat.

Lemma count_float_calls (texts : list string) (rest : list event) :
  count_calls is_float_call (map EvFloat texts ++ rest)
  = length texts + count_calls is_float_call rest.
Proof.
  unfold count_calls. induction texts as [|t texts IH]; simpl;
    [reflexivity|]. rewrite IH. reflexivity.
Qed.

Lemma count_other_calls (p : event -> bool) (texts : list string)
      (rest : list event) :
  (forall t, p (EvFloat t) = false) ->
  count_calls p (map EvFloat texts ++ rest) = count_calls p rest.
Proof.
  intro Hp. unfold count_calls. induction texts as [|t texts IH]; simpl;
    [reflexivity|]. rewrite Hp. exact IH.
Qed.

Lemma map_EvFloat_last (texts : list string) (rest : list event) :
  map EvFloat texts ++ rest ++ [EvUpdate]
  = (map EvFloat texts ++ rest) ++ [EvUpdate].
Proof. apply app_assoc. Qed.

(** X2.  Whatever the control holds, the method returns normally and
    redraws exactly once, as its last call; before that it calls [float]
    at most four times, the scaler at most once and the model at most
    once, and the model only after the scaler. *)
Theorem every_run_redraws_once (self : AnomalyChecker) :
  run_result float_of self = Ok tt
  /\ (exists calls,
        run_trace float_of self = calls ++ [EvUpdate]
        /\ count_calls is_update_call calls = 0
        /\ count_calls is_float_call calls <= 4
        /\ count_calls is_predict_call calls
           <= count_calls is_transform_call calls
        /\ count_calls is_transform_call calls <= 1).
Proof.
  unfold run_result, run_trace.
  destruct (run_forms float_of self)
    as [[_ Hrun]
       |[[k [_ [_ [Hk [_ [_ Hrun]]]]]]
        |[[m [s [v1 [v2 [v3 [v4 [_ [_ [_ [_ Hrun]]]]]]]]]]
         |[m [s [v1 [v2 [v3 [v4 [batch [_ [_ [_ [_ Hrun]]]]]]]]]]]]]];
    rewrite Hrun; cbn [fst snd]; (split; [reflexivity|]).
  - exists []. repeat split; cbn; lia.
  - exists (map EvFloat (firstn (S k) (form_texts self))).
    split; [reflexivity|].
    rewrite <- (app_nil_r (map EvFloat (firstn (S k) (form_texts self)))).
    rewrite count_float_calls, !count_other_calls by reflexivity.
    rewrite length_firstn. unfold form_texts. cbn. lia.
  - exists (map EvFloat (form_texts self) ++ [EvTransform [[v1; v2; v3; v4]]]).
    split; [rewrite <- app_assoc; reflexivity|].
    rewrite count_float_calls, !count_other_calls by reflexivity.
    unfold form_texts. cbn. lia.
  - exists (map EvFloat (form_texts self)
            ++ [EvTransform [[v1; v2; v3; v4]]; EvPredict batch]).
    split; [rewrite <- app_assoc; reflexivity|].
    rewrite count_float_calls, !count_other_calls by reflexivity.
    unfold form_texts. cbn. lia.
Qed.

(** X3.  After every call the result card is visible and the result
    label holds one of the four messages of the method, green for the
    Normal verdict and red for the three others; the status line and the
    four texts of the form are as they were. *)
Theorem display_after_every_run (self : AnomalyChecker) :
  let after := run_state float_of self in
  result_card_visible after = true
  /\ ((lbl_result_value after = "STATUS NORMAL"%string
       /\ lbl_result_color after = GREEN)
      \/ ((lbl_result_value after = "ANOMALY DETECTED"%string
           \/ lbl_result_value after
              = "Invalid Input: Please enter numbers only."%string
           \/ lbl_result_value after = "Model not loaded!"%string)
          /\ lbl_result_color after = RED))
  /\ status after = status self /\ status_color after = status_color self
  /\ form_texts after = form_texts self.
Proof.
  unfold run_state.
  destruct (run_forms float_of self)
    as [[_ Hrun]
       |[[k [_ [_ [Hk [_ [_ Hrun]]]]]]
        |[[m [s [v1 [v2 [v3 [v4 [_ [_ [_ [_ Hrun]]]]]]]]]]
         |[m [s [v1 [v2 [v3 [v4 [batch [_ [_ [_ [_ Hrun]]]]]]]]]]]]]];
    rewrite Hrun; cbn [fst snd].
  - split; [reflexivity|]. split; [right; split; auto|repeat split].
  - split; [reflexivity|]. split; [right; split; auto|repeat split].
  - split; [reflexivity|]. split; [right; split; auto|repeat split].
  - destruct (fgt (mae_loss_of m batch) DEFAULT_THRESHOLD).
    + split; [reflexivity|]. split; [right; split; auto|repeat split].
    + split; [reflexivity|]. split; [left; split; reflexivity|repeat split].
Qed.

Lemma float_calls_well_shaped (texts : list string) :
  forallb well_shaped_call (map EvFloat texts) = true.
Proof. induction texts as [|t texts IH]; [reflexivity|exact IH]. Qed.

(** X5.  Whenever the scaler is called it is given one row of four
    values, and whenever the model is called it is given an array of shape
    (1, TIME_STEPS, 4), whatever the scaler answered. *)
Theorem collaborators_get_expected_shapes (self : AnomalyChecker) :
  forallb well_shaped_call (run_trace float_of self) = true.
Proof.
  unfold run_trace.
  destruct (run_forms float_of self)
    as [[_ Hrun]
       |[[k [_ [_ [Hk [_ [_ Hrun]]]]]]
        |[[m [s [v1 [v2 [v3 [v4 [_ [_ [_ [_ Hrun]]]]]]]]]]
         |[m [s [v1 [v2 [v3 [v4 [batch [_ [_ [_ [Hb Hrun]]]]]]]]]]]]]];
    rewrite Hrun; cbn [fst snd]; rewrite ?forallb_app.
  - reflexivity.
  - rewrite float_calls_well_shaped. reflexivity.
  - rewrite float_calls_well_shaped. reflexivity.
  - rewrite float_calls_well_shaped.
    assert (Hshape : Np.has_shape 1 TIME_STEPS 4 batch = true).
    { apply (reshape_shape
               (Np.repeat (s [[v1; v2; v3; v4]]) TIME_STEPS) TIME_STEPS 4);
        [unfold TIME_STEPS; lia|lia|exact Hb]. }
    cbn [forallb well_shaped_call]. rewrite Hshape. reflexivity.
Qed.

End EveryRunProperties.

Section RejectedAndMisshapen.
Import App.

Variable float_of : string -> option pyfloat.

(** X4.  With both assets loaded, the texts are parsed in the order
    temperature, humidity, pressure, soil moisture, and parsing stops at
    the first text [float] rejects: the calls are [float] on the texts up
    to and including that one, then the redraw; the later texts are not
    parsed and neither the scaler nor the model is called. *)
Theorem parsing_stops_at_first_rejected_text (self : AnomalyChecker) (k : nat) :
  model self <> None -> scaler self <> None -> k < 4 ->
  float_of (nth k (form_texts self) ""%string) = None ->
  (forall j, j < k -> float_of (nth j (form_texts self) ""%string) <> None) ->
  run_trace float_of self
  = map EvFloat (firstn (S k) (form_texts self)) ++ [EvUpdate]
  /\ count_calls is_transform_call (run_trace float_of self) = 0
  /\ count_calls is_predict_call (run_trace float_of self) = 0.
Proof.
  intros Hm Hs Hk Hnone Hbefore.
  assert (Hrun : run_trace float_of self
                 = map EvFloat (firstn (S k) (form_texts self)) ++ [EvUpdate]).
  { unfold run_trace.
    destruct (run_forms float_of self)
      as [[[H|H] _]
         |[[k' [_ [_ [Hk' [Hnone' [Hbefore' Hrun]]]]]]
          |[[m [s [v1 [v2 [v3 [v4 [_ [_ [Hparsed _]]]]]]]]]
           |[m [s [v1 [v2 [v3 [v4 [batch [_ [_ [Hparsed _]]]]]]]]]]]]];
      try congruence.
    - assert (k' = k).
      { destruct (Nat.lt_trichotomy k' k) as [Hlt|[Heq|Hgt]]; [|exact Heq|].
        - exfalso. apply (Hbefore k' Hlt Hnone').
        - exfalso. apply (Hbefore' k Hgt Hnone). }
      subst k'. rewrite Hrun. reflexivity.
    - exfalso. unfold form_texts in *. cbn [map] in Hparsed.
      destruct k as [|[|[|[|k]]]]; try lia; cbn [nth] in Hnone; congruence.
    - exfalso. unfold form_texts in *. cbn [map] in Hparsed.
      destruct k as [|[|[|[|k]]]]; try lia; cbn [nth] in Hnone; congruence. }
  rewrite Hrun. split; [reflexivity|].
  rewrite !count_other_calls by reflexivity. split; reflexivity.
Qed.

(** X6.  With both assets loaded and four parsed texts, a scaler that
    answers with a number of values other than four makes the reshape
    raise: the method reports invalid input although the input is numeric,
    after calling the scaler and without calling the model.  With four
    values, in whatever arrangement, the model is called once. *)
Theorem scaler_answer_of_wrong_size_is_invalid_input
        (self : AnomalyChecker) (m : Model) (s : Scaler)
        (v1 v2 v3 v4 : pyfloat) :
  model self = Some m -> scaler self = Some s ->
  float_of (txt_temp self) = Some v1 -> float_of (txt_hum self) = Some v2 ->
  float_of (txt_press self) = Some v3 -> float_of (txt_soil self) = Some v4 ->
  (length (concat (s [[v1; v2; v3; v4]])) <> 4 ->
   run_state float_of self
   = shown_message "Invalid Input: Please enter numbers only." self
   /\ run_trace float_of self
      = map EvFloat (form_texts self)
        ++ [EvTransform [[v1; v2; v3; v4]]; EvUpdate])
  /\ (length (concat (s [[v1; v2; v3; v4]])) = 4 ->
      count_calls is_predict_call (run_trace float_of self) = 1).
Proof.
  intros Hm Hs H1 H2 H3 H4.
  pose proof (input_batch_of_defined s [v1; v2; v3; v4]) as Hdef.
  destruct (run_forms float_of self)
    as [[[H|H] _]
       |[[k [_ [_ [Hk [Hnone _]]]]]
        |[[m' [s' [w1 [w2 [w3 [w4 [Hm' [Hs' [Hparsed [Hb Hrun]]]]]]]]]]
         |[m' [s' [w1 [w2 [w3 [w4 [batch [Hm' [Hs' [Hparsed [Hb Hrun]]]]]]]]]]]]]];
    try congruence.
  - exfalso. unfold form_texts in Hnone.
    destruct k as [|[|[|[|k]]]]; try lia; cbn [nth] in Hnone; congruence.
  - unfold form_texts in Hparsed. cbn [map] in Hparsed.
    rewrite H1, H2, H3, H4 in Hparsed. injection Hparsed as <- <- <- <-.
    assert (s' = s) by congruence. subst s'.
    unfold run_state, run_trace. rewrite Hrun. cbn [fst snd].
    split; [intros _; split; reflexivity|].
    intro Hlen. exfalso. apply Hdef in Hlen. congruence.
  - unfold form_texts in Hparsed. cbn [map] in Hparsed.
    rewrite H1, H2, H3, H4 in Hparsed. injection Hparsed as <- <- <- <-.
    assert (s' = s) by congruence. subst s'.
    unfold run_trace. rewrite Hrun. cbn [fst snd].
    split.
    + intro Hlen. exfalso. apply Hlen, Hdef. congruence.
    + intros _. rewrite count_other_calls by reflexivity. reflexivity.
Qed.

End RejectedAndMisshapen.

Section RejectedAndMisshapenExamples.
Import App Sample.

(** A rejected humidity: the temperature and the humidity are parsed, the
    pressure and the soil moisture are not. *)
Lemma parsing_stops_at_first_rejected_text_witness :
  float_fragment "fifty" = None
  /\ run_trace float_fragment bad_humidity_checker
     = [EvFloat "25.0"; EvFloat "fifty"; EvUpdate].
Proof.
  split; [reflexivity|].
  apply (parsing_stops_at_first_rejected_text float_fragment
           bad_humidity_checker 1).
  - discriminate.
  - discriminate.
  - lia.
  - reflexivity.
  - intros j Hj. destruct j as [|j]; [discriminate|lia].
Defined.

(** A scaler that drops a column: the default reading of the form is
    reported as invalid input. *)
Lemma scaler_answer_of_wrong_size_is_invalid_input_witness :
  length (concat (narrow_scaler [[Fin 25; Fin 50; Fin 1013; Fin 800]])) = 3
  /\ lbl_result_value (run_state float_fragment narrow_checker)
     = "Invalid Input: Please enter numbers only."%string
  /\ count_calls is_predict_call (run_trace float_fragment narrow_checker) = 0.
Proof.
  split; [reflexivity|].
  destruct (scaler_answer_of_wrong_size_is_invalid_input float_fragment
              narrow_checker demo_model narrow_scaler
              (Fin 25) (Fin 50) (Fin 1013) (Fin 800)
              eq_refl eq_refl eq_refl eq_refl eq_refl eq_refl)
    as [Hwrong _].
  destruct Hwrong as [Hstate Hcalls]; [discriminate|].
  rewrite Hstate, Hcalls. split; reflexivity.
Defined.

End RejectedAndMisshapenExamples.

(* ================================================================== *)
(** * Severity and progress bar around the threshold *)
(* ================================================================== *)

Section AroundThreshold.
Import App.

Variable float_of : string -> option pyfloat.

Lemma ratio_times_threshold (q : Q) :
  (q == (15 # 100) * (q / (15 # 100)))%Q.
Proof. symmetry. apply Qmult_div_r. discriminate. Qed.

Lemma fdiv_threshold (q : Q) :
  fdiv (Fin q) DEFAULT_THRESHOLD = Fin (q / (15 # 100)).
Proof. reflexivity. Qed.

(** The percentage is above 100 exactly when the error is above the
    threshold. *)
Lemma percent_above_100 (err : pyfloat) :
  fgt (fmul (fdiv err DEFAULT_THRESHOLD) (Fin 100)) (Fin 100)
  = fgt err DEFAULT_THRESHOLD.
Proof.
  destruct err as [q| | |]; try reflexivity.
  rewrite fdiv_threshold. unfold fgt, DEFAULT_THRESHOLD. cbn [fmul].
  pose proof (ratio_times_threshold q) as Hq.
  destruct (flt (Fin (15 # 100)) (Fin q)) eqn:E.
  - apply flt_Fin in E. apply flt_Fin. lra.
  - apply flt_Fin_false in E. apply flt_Fin_false. lra.
Qed.

(** X7.  After a scoring, the model answering an array of the shape it
    is given, the score label is a Severity above 100 percent exactly in
    the Anomaly verdict and a Deviation of at most 100 percent (or nan)
    exactly in the Normal verdict. *)
Theorem severity_above_100_iff_anomaly
        (self : AnomalyChecker) (m : Model) (s : Scaler)
        (v1 v2 v3 v4 : pyfloat) (batch : Np.tensor3) :
  model self = Some m -> scaler self = Some s ->
  float_of (txt_temp self) = Some v1 -> float_of (txt_hum self) = Some v2 ->
  float_of (txt_press self) = Some v3 -> float_of (txt_soil self) = Some v4 ->
  input_batch_of s [v1; v2; v3; v4] = Some batch ->
  Np.has_shape 1 TIME_STEPS 4 (m batch) = true ->
  let after := run_state float_of self in
  match lbl_score_value after with
  | Severity p =>
      fgt p (Fin 100) = true
      /\ lbl_result_value after = "ANOMALY DETECTED"%string
  | Deviation p =>
      fgt p (Fin 100) = false
      /\ lbl_result_value after = "STATUS NORMAL"%string
  | ScoreInitial => False
  end.
Proof.
  intros Hm Hs H1 H2 H3 H4 Hb _ after. unfold after, run_state.
  rewrite (run_scored float_of self m s v1 v2 v3 v4 batch Hm Hs H1 H2 H3 H4 Hb).
  cbn [fst snd].
  destruct (fgt (mae_loss_of m batch) DEFAULT_THRESHOLD) eqn:Hgt;
    cbn [lbl_score_value lbl_result_value shown_anomaly shown_normal
         with_progress_bar_value with_progress_bar_color
         with_lbl_score_value with_lbl_result_color with_lbl_result_value
         with_result_card_visible with_lbl_loss_value];
    rewrite percent_above_100, Hgt; split; reflexivity.
Qed.

(** The bar of the Anomaly branch lies above one half, is at most one,
    and is full exactly from twice the threshold on. *)
Lemma anomaly_bar (err : pyfloat) :
  fgt err DEFAULT_THRESHOLD = true ->
  let bar := py_min (fmul (fdiv err DEFAULT_THRESHOLD) (Fin (5 # 10))) (Fin 1) in
  flt (Fin (5 # 10)) bar = true /\ fle bar one = true
  /\ feqb bar one = fle (Fin (3 # 10)) err.
Proof.
  destruct err as [q| | |]; try discriminate; [|repeat split].
  intro Hgt. unfold fgt, DEFAULT_THRESHOLD in Hgt. apply flt_Fin in Hgt.
  rewrite fdiv_threshold. cbn [fmul]. unfold py_min.
  pose proof (ratio_times_threshold q) as Hq.
  destruct (flt (Fin 1) (Fin (q / (15 # 100) * (5 # 10)))) eqn:Hcap; cbv zeta.
  - apply flt_Fin in Hcap. split; [reflexivity|]. split; [reflexivity|].
    symmetry. change (feqb (Fin 1) one) with true. apply fle_Fin. lra.
  - apply flt_Fin_false in Hcap.
    split; [apply flt_Fin; lra|]. split; [apply fle_Fin; exact Hcap|].
    unfold feqb, one.
    replace (fle (Fin (q / (15 # 100) * (5 # 10))) (Fin 1)) with true
      by (symmetry; apply fle_Fin; exact Hcap).
    cbn [andb].
    destruct (fle (Fin (3 # 10)) (Fin q)) eqn:E.
    + apply fle_Fin in E. apply fle_Fin. lra.
    + apply Bool.not_true_iff_false. intro H. apply fle_Fin in H.
      apply Bool.not_true_iff_false in E. apply E, fle_Fin. lra.
Qed.

(** The bar of the Normal branch is full exactly at the threshold. *)
Lemma normal_bar (err : pyfloat) :
  fgt err DEFAULT_THRESHOLD = false ->
  feqb (fdiv err DEFAULT_THRESHOLD) one = feqb err DEFAULT_THRESHOLD.
Proof.
  destruct err as [q| | |]; try reflexivity.
  intros _. rewrite fdiv_threshold. unfold feqb, one, DEFAULT_THRESHOLD.
  pose proof (ratio_times_threshold q) as Hq.
  assert (E1 : fle (Fin (q / (15 # 100))) (Fin 1)
               = fle (Fin q) (Fin (15 # 100))).
  { destruct (fle (Fin q) (Fin (15 # 100))) eqn:E.
    - apply fle_Fin in E. apply fle_Fin. lra.
    - apply Bool.not_true_iff_false. intro H. apply fle_Fin in H.
      apply Bool.not_true_iff_false in E. apply E, fle_Fin. lra. }
  assert (E2 : fle (Fin 1) (Fin (q / (15 # 100)))
               = fle (Fin (15 # 100)) (Fin q)).
  { destruct (fle (Fin (15 # 100)) (Fin q)) eqn:E.
    - apply fle_Fin in E. apply fle_Fin. lra.
    - apply Bool.not_true_iff_false. intro H. apply fle_Fin in H.
      apply Bool.not_true_iff_false in E. apply E, fle_Fin. lra. }
  rewrite E1, E2. reflexivity.
Qed.

(** X8.  The progress bar is not monotone in the error.  After a
    scoring, the model answering an array of the shape it is given: in the
    Normal verdict the bar is full exactly when the error equals the
    threshold; in the Anomaly verdict it restarts above one half, and is
    full again exactly when the error is at least 0.30, twice the
    threshold. *)
Theorem progress_bar_restarts_above_threshold
        (self : AnomalyChecker) (m : Model) (s : Scaler)
        (v1 v2 v3 v4 : pyfloat) (batch : Np.tensor3) :
  model self = Some m -> scaler self = Some s ->
  float_of (txt_temp self) = Some v1 -> float_of (txt_hum self) = Some v2 ->
  float_of (txt_press self) = Some v3 -> float_of (txt_soil self) = Some v4 ->
  input_batch_of s [v1; v2; v3; v4] = Some batch ->
  Np.has_shape 1 TIME_STEPS 4 (m batch) = true ->
  let err := mae_loss_of m batch in
  let bar := progress_bar_value (run_state float_of self) in
  (fgt err DEFAULT_THRESHOLD = false ->
   feqb bar one = feqb err DEFAULT_THRESHOLD)
  /\ (fgt err DEFAULT_THRESHOLD = true ->
      flt (Fin (5 # 10)) bar = true /\ fle bar one = true
      /\ feqb bar one = fle (Fin (3 # 10)) err).
Proof.
  intros Hm Hs H1 H2 H3 H4 Hb _ err bar. unfold bar, run_state.
  rewrite (run_scored float_of self m s v1 v2 v3 v4 batch Hm Hs H1 H2 H3 H4 Hb).
  cbn [fst snd]. fold err. split; intro Hgt; rewrite Hgt.
  - apply (normal_bar err Hgt).
  - apply (anomaly_bar err Hgt).
Qed.

End AroundThreshold.

Section AroundThresholdExamples.
Import App Sample.

(** The extreme temperature: a Severity above 100 percent. *)
Lemma severity_above_100_iff_anomaly_witness :
  match lbl_score_value (run_state float_fragment hot_checker) with
  | Severity p =>
      fgt p (Fin 100) = true
      /\ lbl_result_value (run_state float_fragment hot_checker)
         = "ANOMALY DETECTED"%string
  | Deviation p =>
      fgt p (Fin 100) = false
      /\ lbl_result_value (run_state float_fragment hot_checker)
         = "STATUS NORMAL"%string
  | ScoreInitial => False
  end.
Proof.
  apply (severity_above_100_iff_anomaly float_fragment hot_checker
           demo_model demo_scaler (Fin 500) (Fin 50) (Fin 1013) (Fin 800)
           hot_batch);
    vm_compute; reflexivity.
Defined.

(** The extreme temperature: the error is far above twice the threshold,
    the verdict is Anomaly and the bar is full. *)
Lemma progress_bar_restarts_above_threshold_witness :
  Np.has_shape 1 TIME_STEPS 4 (demo_model hot_batch) = true
  /\ fgt (mae_loss_of demo_model hot_batch) DEFAULT_THRESHOLD = true
  /\ fle (Fin (3 # 10)) (mae_loss_of demo_model hot_batch) = true
  /\ feqb (progress_bar_value (run_state float_fragment hot_checker)) one
     = true.
Proof.
  assert (Hshape : Np.has_shape 1 TIME_STEPS 4 (demo_model hot_batch) = true)
    by (vm_compute; reflexivity).
  assert (Hgt : fgt (mae_loss_of demo_model hot_batch) DEFAULT_THRESHOLD
                = true)
    by (vm_compute; reflexivity).
  assert (Htwice : fle (Fin (3 # 10)) (mae_loss_of demo_model hot_batch)
                   = true)
    by (vm_compute; reflexivity).
  split; [exact Hshape|]. split; [exact Hgt|]. split; [exact Htwice|].
  destruct (progress_bar_restarts_above_threshold float_fragment
              hot_checker demo_model demo_scaler
              (Fin 500) (Fin 50) (Fin 1013) (Fin 800) hot_batch
              eq_refl eq_refl eq_refl eq_refl eq_refl eq_refl eq_refl
              Hshape)
    as [_ Hanomaly].
  destruct (Hanomaly Hgt) as [_ [_ Hfull]].
  rewrite Hfull. exact Htwice.
Defined.

End AroundThresholdExamples.

(* ================================================================== *)
(** * The collector: lines, records and printed fields *)
(* ================================================================== *)

Section CollectorLines.
Import Collector.

(** One turn of the loop on a marked line that decodes. *)
Lemma step_marked (now : datetime) (data : bytes) (text : str) (w : World) :
  is_marked data = true -> decode data = Some text ->
  step now data w
  = inr (mkWorld
           (logs_csv w ++ written_record now text)
           (stdout w
            ++ [split 44 (compact_timestamp now ++ lit "," ++ squeezed text)])).
Proof.
  unfold is_marked, step, written_record. intros Hmark Hdec.
  rewrite Hmark, Hdec, cleaned_line. reflexivity.
Qed.

Lemma step_unmarked (now : datetime) (data : bytes) (w : World) :
  is_marked data = false -> step now data w = inr w.
Proof. unfold is_marked, step. intros Hmark. rewrite Hmark. reflexivity. Qed.

Lemma decode_utf8_ascii (data : list N) :
  forallb (fun b => (b <? 128)%N) data = true -> decode_utf8 data = Some data.
Proof.
  induction data as [|b data IH]; [reflexivity|].
  cbn [forallb decode_utf8]. intro H. apply andb_true_iff in H.
  destruct H as [Hb Hdata]. rewrite Hb, (IH Hdata). reflexivity.
Qed.

(** X10.  A line of ASCII bytes always decodes, to the same characters;
    so a marked ASCII line never ends the collector and always adds its
    record to the log. *)
Theorem ascii_line_is_always_logged
        (now : datetime) (data : bytes) (w : World) :
  is_ascii data = true ->
  decode data = Some (map Byte.to_N data)
  /\ (is_marked data = true ->
      step now data w
      = inr (mkWorld
               (logs_csv w ++ written_record now (map Byte.to_N data))
               (stdout w
                ++ [split 44 (compact_timestamp now ++ lit ","
                              ++ squeezed (map Byte.to_N data))]))).
Proof.
  intro Hascii.
  assert (Hdec : decode data = Some (map Byte.to_N data)).
  { unfold decode. apply decode_utf8_ascii. unfold is_ascii in Hascii.
    clear -Hascii. induction data as [|b data IH]; [reflexivity|].
    cbn [forallb map] in *. apply andb_true_iff in Hascii.
    destruct Hascii as [Hb Hdata]. rewrite Hb, (IH Hdata). reflexivity. }
  split; [exact Hdec|]. intro Hmark. apply step_marked; assumption.
Qed.

(** A line of four values. *)
Lemma ascii_line_is_always_logged_witness :
  is_ascii demo_line = true
  /\ logs_csv_after demo_now demo_line
     = Some (written_record demo_now (map Byte.to_N demo_line)).
Proof.
  split; [reflexivity|].
  destruct (ascii_line_is_always_logged demo_now demo_line empty_world
              eq_refl) as [_ Hstep].
  unfold logs_csv_after. rewrite (Hstep eq_refl). reflexivity.
Defined.

End CollectorLines.

Section CollectorPayload.
Import Collector.

Lemma lstrip_all_space (s : str) : forallb isspace s = true -> lstrip s = [].
Proof.
  induction s as [|c s IH]; [reflexivity|].
  cbn [forallb lstrip]. intro H. apply andb_true_iff in H.
  destruct H as [Hc Hs]. rewrite Hc. apply IH, Hs.
Qed.

Lemma lstrip_app (a b : str) :
  lstrip (a ++ b) = match lstrip a with [] => lstrip b | l => l ++ b end.
Proof.
  induction a as [|c a IH]; [reflexivity|].
  cbn [app lstrip]. destruct (isspace c); [exact IH|reflexivity].
Qed.

(** [rstrip] one character further to the left. *)
Lemma rstrip_cons (x : N) (s : str) :
  rstrip (x :: s)
  = match rstrip s with
    | [] => if isspace x then [] else [x]
    | l => x :: l
    end.
Proof.
  unfold rstrip. cbn [rev]. rewrite lstrip_app.
  destruct (lstrip (rev s)) as [|c l] eqn:E.
  - cbn [rev lstrip]. destruct (isspace x); reflexivity.
  - rewrite rev_app_distr. cbn [rev app].
    destruct (rev l ++ [c]) eqn:E'; [|reflexivity].
    apply app_eq_nil in E'. destruct E' as [_ E']. discriminate.
Qed.

Lemma rstrip_all_space (s : str) : forallb isspace s = true -> rstrip s = [].
Proof.
  intro H. unfold rstrip. rewrite lstrip_all_space; [reflexivity|].
  apply forallb_forall. intros c Hc. apply in_rev in Hc.
  rewrite forallb_forall in H. apply H, Hc.
Qed.

(** Without its spaces, the right-stripped text after a space is the
    right-stripped text. *)
Lemma filter_rstrip_space (s : str) :
  filter not_space (rstrip (32%N :: s)) = filter not_space (rstrip s).
Proof.
  rewrite rstrip_cons. destruct (rstrip s); reflexivity.
Qed.

Lemma rstrip_cons_nonspace (x : N) (s : str) :
  isspace x = false -> rstrip (x :: s) = x :: rstrip s.
Proof.
  intro Hx. rewrite rstrip_cons, Hx. destruct (rstrip s); reflexivity.
Qed.

(** The marker in front of a payload survives the strip up to its space,
    loses the space, and is then removed as the first marker word. *)
Lemma squeezed_marked (payload : str) :
  squeezed (lit "[Logs] " ++ payload) = squeezed_payload payload.
Proof.
  unfold squeezed, squeezed_payload, strip.
  change (lit "[Logs] " ++ payload)
    with (91%N :: 76%N :: 111%N :: 103%N :: 115%N :: 93%N :: 32%N :: payload).
  change (lstrip (91%N :: 76%N :: 111%N :: 103%N :: 115%N :: 93%N
                  :: 32%N :: payload))
    with (91%N :: 76%N :: 111%N :: 103%N :: 115%N :: 93%N :: 32%N :: payload).
  rewrite replace_space.
  assert (E : filter not_space
                (rstrip (91%N :: 76%N :: 111%N :: 103%N :: 115%N :: 93%N
                         :: 32%N :: payload))
              = 91%N :: 76%N :: 111%N :: 103%N :: 115%N :: 93%N
                :: filter not_space (rstrip payload)).
  { rewrite !rstrip_cons_nonspace by reflexivity.
    rewrite <- filter_rstrip_space. reflexivity. }
  rewrite E. reflexivity.
Qed.

Lemma byte_eqb_eq (a b : byte) : byte_eqb a b = true -> a = b.
Proof.
  unfold byte_eqb. intro H. apply N.eqb_eq in H.
  pose proof (Byte.of_to_N a) as Ha. rewrite H, Byte.of_to_N in Ha.
  congruence.
Qed.

Lemma startswith_prefix (data p : bytes) :
  startswith byte_eqb data p = true -> data = p ++ skipn (length p) data.
Proof.
  revert data. induction p as [|x p IH]; intros data H; [reflexivity|].
  destruct data as [|y data]; [discriminate|].
  cbn [startswith] in H. apply andb_true_iff in H. destruct H as [Hxy Hp].
  apply byte_eqb_eq in Hxy. subst y. cbn [length skipn app].
  f_equal. apply IH, Hp.
Qed.

(** Decoding a marked line is decoding its payload behind the marker. *)
Lemma decode_marked (payload : bytes) :
  decode (MARKER ++ payload)
  = option_map (app (lit "[Logs] ")) (decode payload).
Proof.
  unfold decode. rewrite map_app.
  change (map Byte.to_N MARKER)
    with [91%N; 76%N; 111%N; 103%N; 115%N; 93%N; 32%N].
  cbn [app decode_utf8 N.ltb N.compare Pos.compare Pos.compare_cont].
  destruct (decode_utf8 (map Byte.to_N payload)); reflexivity.
Qed.

(** X11.  A marked line is its marker followed by a payload, and it
    decodes exactly when the payload does.  Its record is the compact
    timestamp, a comma, [squeezed_payload] of the decoded payload and a
    newline: the payload without the whitespace at its end and without
    any space, after one pass of [replace] from left to right has removed
    the marker word from it.  The fields printed are the record before
    the newline, split at its commas. *)
Theorem marked_line_record_is_payload
        (now : datetime) (data : bytes) (w : World) :
  is_marked data = true ->
  let payload := skipn (length MARKER) data in
  data = MARKER ++ payload
  /\ (decode data = None <-> decode payload = None)
  /\ (forall p, decode payload = Some p ->
        step now data w
        = inr (mkWorld
                 (logs_csv w
                  ++ (compact_timestamp now ++ lit "," ++ squeezed_payload p)
                  ++ [10%N])
                 (stdout w
                  ++ [split 44 (compact_timestamp now ++ lit ","
                                ++ squeezed_payload p)]))).
Proof.
  intros Hmark payload.
  assert (Hdata : data = MARKER ++ payload)
    by (apply startswith_prefix; exact Hmark).
  split; [exact Hdata|].
  assert (Hdec : decode data
                 = option_map (app (lit "[Logs] ")) (decode payload)).
  { rewrite Hdata at 1. apply decode_marked. }
  split.
  - rewrite Hdec. destruct (decode payload); split; intro H;
      try discriminate; reflexivity.
  - intros p Hp. rewrite Hp in Hdec. cbn [option_map] in Hdec.
    rewrite (step_marked now data _ w Hmark Hdec).
    unfold written_record. rewrite squeezed_marked. reflexivity.
Qed.

(** X12.  A marked line whose payload is empty or only whitespace is
    logged all the same: its record is the compact timestamp and a comma,
    and the fields printed are the timestamp and an empty text. *)
Theorem blank_payload_is_logged
        (now : datetime) (payload : bytes) (p : str) (w : World) :
  decode payload = Some p -> forallb isspace p = true ->
  step now (MARKER ++ payload) w
  = inr (mkWorld (logs_csv w ++ compact_timestamp now ++ [44%N; 10%N])
                 (stdout w ++ [[compact_timestamp now; []]])).
Proof.
  intros Hp Hblank.
  assert (Hdec : decode (MARKER ++ payload) = Some (lit "[Logs] " ++ p)).
  { rewrite decode_marked, Hp. reflexivity. }
  assert (Hmark : is_marked (MARKER ++ payload) = true) by reflexivity.
  rewrite (step_marked now _ _ w Hmark Hdec).
  unfold written_record. rewrite squeezed_marked.
  unfold squeezed_payload. rewrite (rstrip_all_space p Hblank).
  change (replace (filter not_space []) (lit "[Logs]") (lit "")) with (@nil N).
  change (lit ",") with [44%N]. rewrite app_nil_r.
  assert (Hsplit : split 44 (compact_timestamp now ++ [44%N])
                   = [compact_timestamp now; []]).
  { pose proof (compact_timestamp_not 44 now ltac:(lia)) as Hts.
    induction (compact_timestamp now) as [|c ts IH]; [reflexivity|].
    cbn [forallb] in Hts. apply andb_true_iff in Hts.
    destruct Hts as [Hc Hts]. cbn [app split].
    rewrite N.eqb_sym. apply negb_true_iff in Hc. rewrite Hc.
    rewrite (IH Hts). reflexivity. }
  rewrite Hsplit, <- app_assoc. reflexivity.
Qed.

End CollectorPayload.

Section CollectorPayloadExamples.
Import Collector.

(** A line of four values: the record is built from what follows the
    marker. *)
Lemma marked_line_record_is_payload_witness :
  is_marked demo_line = true
  /\ logs_csv_after demo_now demo_line
     = Some ((compact_timestamp demo_now ++ lit ","
              ++ squeezed_payload (lit "25.5,60.1,1013.2,812" ++ [13%N; 10%N]))
             ++ [10%N]).
Proof.
  split; [reflexivity|].
  destruct (marked_line_record_is_payload demo_now demo_line empty_world
              eq_refl) as [_ [_ Hstep]].
  unfold logs_csv_after.
  rewrite (Hstep (lit "25.5,60.1,1013.2,812" ++ [13%N; 10%N]) eq_refl).
  reflexivity.
Defined.

(** One pass of [replace] can put a marker word together: the payload
    [[Logs]Logs] is logged as the marker word. *)
Example removal_can_form_marker_word :
  squeezed_payload (lit "[[Logs]Logs]" ++ [13%N; 10%N]) = lit "[Logs]"
  /\ step demo_now
          (MARKER ++ list_byte_of_string "[[Logs]Logs]" ++ [x0d; x0a])
          empty_world
     = inr (mkWorld (lit "2024-03-0514:07:09,[Logs]" ++ [10%N])
                    [[lit "2024-03-0514:07:09"; lit "[Logs]"]]).
Proof. split; reflexivity. Qed.

(** The marker alone on a line. *)
Lemma blank_payload_is_logged_witness :
  forallb isspace [13%N; 10%N] = true
  /\ step demo_now (MARKER ++ [x0d; x0a]) empty_world
     = inr (mkWorld (lit "2024-03-0514:07:09," ++ [10%N])
                    [[lit "2024-03-0514:07:09"; []]]).
Proof.
  split; [reflexivity|].
  rewrite (blank_payload_is_logged demo_now [x0d; x0a] [13%N; 10%N]
             empty_world eq_refl eq_refl).
  reflexivity.
Defined.

End CollectorPayloadExamples.

Section CollectorFields.
Import Collector.

Lemma split_not_empty (sep : N) (s : str) : split sep s <> [].
Proof.
  induction s as [|c s IH]; [discriminate|].
  cbn [split]. destruct (c =? sep)%N; [discriminate|].
  destruct (split sep s); discriminate.
Qed.

(** Joining what was split gives the text back. *)
Lemma join_split (sep : N) (s : str) : join sep (split sep s) = s.
Proof.
  induction s as [|c s IH]; [reflexivity|].
  cbn [split]. destruct (c =? sep)%N eqn:E.
  - apply N.eqb_eq in E. subst c.
    pose proof (split_not_empty sep s) as Hne.
    destruct (split sep s) as [|f fs]; [congruence|].
    cbn [join app] in *. rewrite IH. reflexivity.
  - pose proof (split_not_empty sep s) as Hne.
    destruct (split sep s) as [|f fs]; [congruence|].
    destruct fs as [|g fs]; cbn [join app] in *; rewrite <- IH; reflexivity.
Qed.

(** No field of a split holds the separator, and every character of a
    field is a character of the text. *)
Lemma split_fields (sep : N) (s : str) (p : N -> bool) :
  forallb p s = true ->
  forallb (forallb (fun c => negb (c =? sep)%N && p c)) (split sep s) = true.
Proof.
  induction s as [|c s IH]; [reflexivity|].
  cbn [forallb split]. intro H. apply andb_true_iff in H.
  destruct H as [Hc Hs]. specialize (IH Hs).
  destruct (c =? sep)%N eqn:E.
  - cbn [forallb]. exact IH.
  - destruct (split sep s) as [|f fs]; cbn [forallb] in *;
      rewrite E, Hc; cbn [negb andb]; [reflexivity|exact IH].
Qed.

(** A text without the separator in front of a separator is the first
    field. *)
Lemma split_first_field (sep : N) (a b : str) :
  forallb (fun c => negb (sep =? c)%N) a = true ->
  split sep (a ++ sep :: b) = a :: split sep b.
Proof.
  induction a as [|c a IH]; intro H.
  - cbn [app split]. rewrite N.eqb_refl. reflexivity.
  - cbn [forallb] in H. apply andb_true_iff in H. destruct H as [Hc Ha].
    cbn [app split]. rewrite N.eqb_sym. apply negb_true_iff in Hc.
    rewrite Hc, (IH Ha). reflexivity.
Qed.

Lemma squeezed_without_space (text : str) :
  forallb not_space (squeezed text) = true.
Proof.
  apply forallb_forall. intros c Hc. unfold squeezed in Hc.
  unfold replace at 1 in Hc. change (lit "") with (@nil N) in Hc.
  apply in_replace_aux_empty in Hc. rewrite replace_space in Hc.
  apply filter_In in Hc. apply Hc.
Qed.

(** X13.  What is printed and what is logged agree.  For a marked line
    that decodes, the fields printed are the compact timestamp followed by
    at least one more field; the record in the log is these fields joined
    by commas, with a newline; no field holds a comma or a space. *)
Theorem printed_fields_match_record
        (now : datetime) (data : bytes) (text : str) (w : World) :
  is_marked data = true -> decode data = Some text ->
  exists fields,
    step now data w
    = inr (mkWorld
             (logs_csv w ++ join 44 (compact_timestamp now :: fields)
              ++ [10%N])
             (stdout w ++ [compact_timestamp now :: fields]))
    /\ fields <> []
    /\ forallb (forallb field_char) (compact_timestamp now :: fields) = true.
Proof.
  intros Hmark Hdec. exists (split 44 (squeezed text)).
  assert (Hts : forallb (fun c => negb (44 =? c)%N) (compact_timestamp now)
                = true) by (apply compact_timestamp_not; lia).
  assert (Hsplit : split 44 (compact_timestamp now ++ lit "," ++ squeezed text)
                   = compact_timestamp now :: split 44 (squeezed text)).
  { change (lit ",") with [44%N]. cbn [app].
    apply split_first_field, Hts. }
  split; [|split].
  - rewrite (step_marked now data text w Hmark Hdec). unfold written_record.
    rewrite Hsplit, <- Hsplit, join_split. reflexivity.
  - apply split_not_empty.
  - rewrite <- Hsplit. unfold field_char. apply split_fields.
    assert (Hns : forallb not_space (compact_timestamp now) = true)
      by (apply (compact_timestamp_not 32); lia).
    rewrite !forallb_app, squeezed_without_space, Hns. reflexivity.
Qed.

(** A line of four values: five fields are printed. *)
Lemma printed_fields_match_record_witness :
  exists fields,
    step demo_now demo_line empty_world
    = inr (mkWorld
             (join 44 (compact_timestamp demo_now :: fields) ++ [10%N])
             [compact_timestamp demo_now :: fields])
    /\ fields <> []
    /\ forallb (forallb field_char) (compact_timestamp demo_now :: fields)
       = true.
Proof.
  exact (printed_fields_match_record demo_now demo_line
           (lit "[Logs] 25.5,60.1,1013.2,812" ++ [13%N; 10%N]) empty_world
           eq_refl eq_refl).
Defined.

End CollectorFields.

Section CollectorRuns.
Import Collector.

(** X14.  Lines without the marker leave no trace: a run over the lines
    the device delivers is the run over the marked ones among them. *)
Theorem unmarked_lines_are_ignored
        (input : list (datetime * bytes)) (w : World) :
  run input w = run (filter (fun nd => is_marked (snd nd)) input) w.
Proof.
  revert w. induction input as [|[now data] rest IH]; intro w;
    [reflexivity|].
  cbn [filter snd]. destruct (is_marked data) eqn:Hmark.
  - cbn [run]. destruct (step now data w) as [e|w1]; [reflexivity|apply IH].
  - cbn [run]. rewrite (step_unmarked now data w Hmark). apply IH.
Qed.

Lemma step_fatal (now : datetime) (data : bytes) (w : World) :
  (exists e, step now data w = inl e) <-> is_fatal data = true.
Proof.
  unfold is_fatal, is_marked, step.
  destruct (startswith byte_eqb data MARKER);
    [|split; [intros [e H]; discriminate|discriminate]].
  destruct (decode data); cbn [andb]; split; try discriminate.
  - intros [e H]. discriminate.
  - reflexivity.
  - intros _. exists UnicodeDecodeError. reflexivity.
Qed.

(** X15.  The collector ends with UnicodeDecodeError exactly when one of
    the lines is marked and is not UTF-8; it ends on the first such line,
    so no line after it is processed, whatever the log holds. *)
Theorem run_ends_on_first_fatal_line
        (input : list (datetime * bytes)) (w : World) :
  (run input w = inl UnicodeDecodeError
   <-> existsb (fun nd => is_fatal (snd nd)) input = true)
  /\ (forall before now data rest,
        input = before ++ (now, data) :: rest ->
        is_fatal data = true ->
        existsb (fun nd => is_fatal (snd nd)) before = false ->
        run input w = inl UnicodeDecodeError
        /\ exists w1, run before w = inr w1).
Proof.
  assert (Hiff : forall input w,
            run input w = inl UnicodeDecodeError
            <-> existsb (fun nd => is_fatal (snd nd)) input = true).
  { clear. induction input as [|[now data] rest IH]; intro w.
    - split; discriminate.
    - cbn [run existsb snd]. pose proof (step_fatal now data w) as Hf.
      destruct (step now data w) as [e|w1].
      + destruct e. assert (Ht : is_fatal data = true)
          by (apply Hf; exists UnicodeDecodeError; reflexivity).
        rewrite Ht. split; reflexivity.
      + destruct (is_fatal data).
        * destruct Hf as [_ Hf]. destruct (Hf eq_refl) as [e He].
          discriminate.
        * cbn [orb]. apply IH. }
  split; [apply Hiff|].
  intros before now data rest Hinput Hfatal Hbefore.
  split.
  - apply Hiff. rewrite Hinput, existsb_app. cbn [existsb snd].
    rewrite Hfatal. apply orb_true_iff. right. reflexivity.
  - destruct (run before w) as [e|w1] eqn:Hrun; [|exists w1; reflexivity].
    destruct e. apply Hiff in Hrun. congruence.
Qed.

Lemma newlines_app (a b : str) : newlines (a ++ b) = newlines a + newlines b.
Proof. unfold newlines. rewrite filter_app, length_app. reflexivity. Qed.

Lemma newlines_none (s : str) : ~ In 10%N s -> newlines s = 0.
Proof.
  unfold newlines. induction s as [|c s IH]; [reflexivity|].
  intro H. cbn [filter]. destruct (10 =? c)%N eqn:E.
  - exfalso. apply H. left. symmetry. apply N.eqb_eq, E.
  - apply IH. intro Hin. apply H. right. exact Hin.
Qed.

(** X16.  The log has one line per marked line.  Over lines as
    [readline] returns them, a run that does not end in an error adds to
    the log exactly as many newlines as there are marked lines, and prints
    as many lists of fields. *)
Theorem one_record_per_marked_line
        (input : list (datetime * bytes)) (w w' : World) :
  Forall (fun nd => no_inner_newline (snd nd)) input ->
  run input w = inr w' ->
  newlines (logs_csv w')
  = newlines (logs_csv w)
    + length (filter (fun nd => is_marked (snd nd)) input)
  /\ length (stdout w')
     = length (stdout w)
       + length (filter (fun nd => is_marked (snd nd)) input).
Proof.
  intro Hlines. revert w. induction Hlines as [|[now data] rest Hline _ IH];
    intros w Hrun.
  - injection Hrun as <-. cbn. lia.
  - cbn [run] in Hrun. cbn [filter snd] in *.
    destruct (is_marked data) eqn:Hmark.
    + destruct (decode data) as [text|] eqn:Hdec.
      * rewrite (step_marked now data text w Hmark Hdec) in Hrun.
        destruct (IH _ Hrun) as [Hn Hp]. cbn [logs_csv stdout] in Hn, Hp.
        rewrite Hn, Hp. unfold written_record.
        pose proof (newlines_none _ (record_without_newline now data text
                                       Hdec Hline)) as Hbody.
        rewrite (newlines_app (logs_csv w)), (newlines_app _ [10%N]), Hbody.
        rewrite length_app. cbn. lia.
      * unfold step, is_marked in *. rewrite Hmark, Hdec in Hrun.
        discriminate.
    + rewrite (step_unmarked now data w Hmark) in Hrun.
      apply IH, Hrun.
Qed.

(** Three lines, two of them marked: two records and two printed lists. *)
Lemma one_record_per_marked_line_witness :
  Forall (fun nd => no_inner_newline (snd nd)) demo_input
  /\ exists w',
       run demo_input empty_world = inr w'
       /\ newlines (logs_csv w') = 2 /\ length (stdout w') = 2.
Proof.
  assert (Hlines : Forall (fun nd => no_inner_newline (snd nd)) demo_input).
  { repeat constructor; unfold no_inner_newline; vm_compute;
      intuition discriminate. }
  split; [exact Hlines|].
  destruct (run demo_input empty_world) as [e|w'] eqn:Hrun;
    [vm_compute in Hrun; discriminate|].
  exists w'. split; [reflexivity|].
  apply (one_record_per_marked_line demo_input empty_world w' Hlines Hrun).
Defined.

End CollectorRuns.

Section CollectorRunExamples.
Import Collector.

(** A marked line with a byte that is not UTF-8, between two good lines:
    the run ends there. *)
Lemma run_ends_on_first_fatal_line_witness :
  is_fatal (MARKER ++ [xff; x0a]) = true
  /\ run (demo_input ++ (demo_now, MARKER ++ [xff; x0a])
                     :: [(demo_now, demo_line)]) empty_world
     = inl UnicodeDecodeError.
Proof.
  split; [reflexivity|].
  destruct (run_ends_on_first_fatal_line
              (demo_input ++ (demo_now, MARKER ++ [xff; x0a])
                          :: [(demo_now, demo_line)]) empty_world)
    as [_ Hfirst].
  destruct (Hfirst demo_input demo_now (MARKER ++ [xff; x0a])
              [(demo_now, demo_line)] eq_refl eq_refl eq_refl)
    as [Hrun _].
  exact Hrun.
Defined.

End CollectorRunExamples.
